(** * pysc2.env.mock_sc2_env: the mock StarCraft II environment

    A shallow embedding of [pysc2/env/mock_sc2_env.py]: the generic episode
    engine [_TestEnvironment] and the fixture [SC2TestEnv] built on it, with
    the properties of their step/reset protocol, of the construction of the
    fixture and of the synthesis of its default observation.

    Python objects are records, attribute mutation is explicit state
    passing, and a raised exception is a result of its own which leaves the
    state as the statements before the [raise] made it. *)

From Stdlib Require Import ZArith List String Ascii Lia Bool PrimFloat.
From Stdlib Require Import DecimalString DecimalPos DecimalZ.
From stdpp Require Import gmap strings list fin_maps.

Open Scope string_scope.
Open Scope list_scope.
Open Scope Z_scope.

#[local] Set Warnings "-register-all".

(** ** Python values, exceptions and the calling convention *)

(** The exceptions the module raises itself or lets through. *)
Inductive PyExn : Type :=
| ValueError (msg : string)
| TypeError (msg : string)
| KeyError (key : string)
| IndexError (msg : string)
| AttributeError (name : string).

Inductive Result (A : Type) : Type :=
| Ok (a : A)
| Raise (e : PyExn).
Arguments Ok {A} a.
Arguments Raise {A} e.

Definition is_ok {A} (r : Result A) : bool :=
  match r with Ok _ => true | Raise _ => false end.

(** A method of an object of class [S]: it reads and writes the attributes
    and either returns or raises; the attributes written before a [raise]
    stay written. *)
Definition Eff (S A : Type) : Type := S → Result A * S.

#[global] Instance Eff_ret S : MRet (Eff S) := λ A (a : A) s, (Ok a, s).
#[global] Instance Eff_bind S : MBind (Eff S) :=
  λ A B (k : A → Eff S B) (m : Eff S A) s,
    match m s with
    | (Ok a, s') => k a s'
    | (Raise e, s') => (Raise e, s')
    end.

Definition get_self {S} : Eff S S := λ s, (Ok s, s).
Definition set_self {S} (s : S) : Eff S unit := λ _, (Ok tt, s).
Definition raise {S A} (e : PyExn) : Eff S A := λ s, (Raise e, s).

(** [x * n] on a list or tuple: a negative [n] gives the empty sequence. *)
Definition py_repeat {A} (x : A) (n : Z) : list A := replicate (Z.to_nat n) x.

(** [len(l)] as a Python int. *)
Definition py_len {A} (l : list A) : Z := Z.of_nat (length l).

(** ['%d' % z]. *)
Definition fmt_d (z : Z) : string := NilZero.string_of_int (Z.to_int z).

(** The values that reach the constructor of the fixture.  An instance of a
    named-tuple class (the [Agent] and [Bot] of [sc2_env]) is [PyObj] with
    the name of its class and its fields in order: it is a tuple of its
    fields for [bool] and for iteration. *)
Inductive PyVal : Type :=
| PyNone
| PyBool (b : bool)
| PyInt (z : Z)
| PyFloat (f : float)
| PyStr (s : string)
| PyList (l : list PyVal)
| PyTuple (l : list PyVal)
| PyObj (cls : string) (fields : list PyVal).

(** [bool(v)]: the test of [if v] and [not v]. *)
Definition truthy (v : PyVal) : bool :=
  match v with
  | PyNone => false
  | PyBool b => b
  | PyInt z => negb (z =? 0)
  | PyFloat f => negb (PrimFloat.eqb f 0%float)
  | PyStr s => negb (String.eqb s "")
  | PyList l | PyTuple l | PyObj _ l => match l with [] => false | _ => true end
  end.

(** [a or b]. *)
Definition py_or (a b : PyVal) : PyVal := if truthy a then a else b.

(** [isinstance(v, cls)] for the classes without subclasses used here. *)
Definition isinstance (v : PyVal) (cls : string) : bool :=
  match v with PyObj c _ => String.eqb c cls | _ => false end.

(** [for p in v]: the elements, or a [TypeError] when [v] is not iterable. *)
Definition py_iter (v : PyVal) : Result (list PyVal) :=
  match v with
  | PyList l | PyTuple l | PyObj _ l => Ok l
  | PyStr s => Ok (map (λ c, PyStr (String c EmptyString)) (list_ascii_of_string s))
  | _ => Raise (TypeError "object is not iterable")
  end.

(** ** environment: step types and timesteps *)

Inductive StepType : Type := FIRST | MID | LAST.

#[global] Instance StepType_eq_dec : EqDecision StepType.
Proof. solve_decision. Defined.

Definition is_LAST (t : StepType) : bool :=
  match t with LAST => true | _ => false end.

(** [environment.TimeStep], a named tuple. *)
Record TimeStep (Obs : Type) : Type := mkTimeStep {
  step_type : StepType;
  reward : float;
  discount : float;
  observation : Obs
}.
Arguments mkTimeStep {Obs}.
Arguments step_type {Obs}.
Arguments reward {Obs}.
Arguments discount {Obs}.
Arguments observation {Obs}.

(** [ts._replace(step_type=t)] *)
Definition replace_step_type {Obs} (ts : TimeStep Obs) (t : StepType) : TimeStep Obs :=
  mkTimeStep t (reward ts) (discount ts) (observation ts).

(** [ts._replace(step_type=t, reward=r, discount=d)] *)
Definition replace_step_type_reward_discount {Obs}
    (ts : TimeStep Obs) (t : StepType) (r d : float) : TimeStep Obs :=
  mkTimeStep t r d (observation ts).

(** The values [episode_length] takes in this module: an int, or
    [float('inf')], which no step count reaches. *)
Inductive EpisodeLength : Type :=
| Steps (n : Z)
| Inf.

(** [steps >= episode_length] *)
Definition ge_length (steps : Z) (l : EpisodeLength) : bool :=
  match l with
  | Steps n => n <=? steps
  | Inf => false
  end.

(** ** class _TestEnvironment *)

Module TestEnvironment.

Section Engine.

Context {Obs ObsSpec ActSpec Act : Type}.

(** The attributes of an instance. *)
Record t : Type := mk {
  _num_agents : Z;
  _observation_spec : list ObsSpec;
  _action_spec : list ActSpec;
  _episode_steps : Z;
  next_timestep : TimeStep Obs;
  episode_length : EpisodeLength
}.

Definition set_episode_steps (self : t) (n : Z) : t :=
  mk (_num_agents self) (_observation_spec self) (_action_spec self) n
     (next_timestep self) (episode_length self).

Definition set_next_timestep (self : t) (ts : TimeStep Obs) : t :=
  mk (_num_agents self) (_observation_spec self) (_action_spec self)
     (_episode_steps self) ts (episode_length self).

Definition set_episode_length (self : t) (l : EpisodeLength) : t :=
  mk (_num_agents self) (_observation_spec self) (_action_spec self)
     (_episode_steps self) (next_timestep self) l.

(** [__init__]; [default_observation] is what [self._default_observation()]
    returns, a method the subclass overrides. *)
Definition __init__ (num_agents : Z) (observation_spec : ObsSpec)
    (action_spec : ActSpec) (default_observation : Obs) : t :=
  mk num_agents
     (py_repeat observation_spec num_agents)
     (py_repeat action_spec num_agents)
     0
     (mkTimeStep MID 0%float 1%float default_observation)
     Inf.

(** The timestep [step] picks, lines 91 to 98. *)
Definition pick_timestep (self : t) : TimeStep Obs :=
  if _episode_steps self =? 0 then
    replace_step_type_reward_discount (next_timestep self) FIRST 0%float 1%float
  else if ge_length (_episode_steps self) (episode_length self) then
    replace_step_type (next_timestep self) LAST
  else
    next_timestep self.

Definition arity_message (expected received : Z) : string :=
  ("Expected " ++ fmt_d expected ++ " actions, received " ++ fmt_d received ++ ".")%string.

Definition step (actions : list (option Act)) : Eff t (list (TimeStep Obs)) :=
  self ← get_self;
  if negb (py_len actions =? _num_agents self) then
    raise (ValueError (arity_message (_num_agents self) (py_len actions)))
  else
    let timestep := pick_timestep self in
    (if is_LAST (step_type timestep)
     then set_self (set_episode_steps self 0)
     else set_self (set_episode_steps self (_episode_steps self + 1)));;
    mret (py_repeat timestep (_num_agents self)).

Definition reset : Eff t (list (TimeStep Obs)) :=
  self ← get_self;
  set_self (set_episode_steps self 0);;
  step (py_repeat None (_num_agents self)).

Definition action_spec (self : t) : list ActSpec := _action_spec self.
Definition observation_spec (self : t) : list ObsSpec := _observation_spec self.

End Engine.

Arguments t : clear implicits.

End TestEnvironment.

(** ** Results as a monad, tuples and dicts *)

#[global] Instance Result_ret : MRet Result := λ A (a : A), Ok a.
#[global] Instance Result_bind : MBind Result :=
  λ A B (k : A → Result B) (m : Result A),
    match m with
    | Ok a => k a
    | Raise e => Raise e
    end.

(** [t[i]] on a tuple. *)
Definition tuple_item {A} (t : list A) (i : nat) : Result A :=
  match t !! i with
  | Some x => Ok x
  | None => Raise (IndexError "tuple index out of range")
  end.

(** [d[k]] on a dict. *)
Definition dict_item {A} (d : gmap string A) (k : string) : Result A :=
  match d !! k with
  | Some x => Ok x
  | None => Raise (KeyError k)
  end.

(** [k in d] *)
Definition dict_contains {A} (d : gmap string A) (k : string) : bool :=
  bool_decide (is_Some (d !! k)).

(** ** numpy: two-dimensional integer arrays *)

Record ndarray2 : Type := mk_ndarray2 {
  shape : nat * nat;
  rows : list (list Z)
}.

(** The rows agree with the shape. *)
Definition well_shaped (a : ndarray2) : Prop :=
  length (rows a) = fst (shape a) ∧
  Forall (λ r, length r = snd (shape a)) (rows a).

(** [a[i, j]] *)
Definition item (a : ndarray2) (i j : nat) : option Z :=
  rows a !! i ≫= λ r, r !! j.

(** Apply [f] to the first [n] elements of [l] (all of them when [l] is
    shorter): what a write through the slice [l[:n]] does. *)
Fixpoint update_prefix {A} (n : nat) (f : A → A) (l : list A) : list A :=
  match n, l with
  | S n', x :: l' => f x :: update_prefix n' f l'
  | _, _ => l
  end.

(** [a.fill(v)] *)
Definition ndarray_fill (v : Z) (a : ndarray2) : ndarray2 :=
  mk_ndarray2 (shape a) (map (map (λ _, v)) (rows a)).

(** [a[:h, :w].fill(v)]: the slice is a view, the write lands in [a]. *)
Definition ndarray_fill_slice (h w : nat) (v : Z) (a : ndarray2) : ndarray2 :=
  mk_ndarray2 (shape a) (update_prefix h (update_prefix w (λ _, v)) (rows a)).

(** A field of the observation: a stack of named layers (what
    [obs.feature_minimap.camera] indexes), or any other array, kept as its
    shape and its flat data. *)
Inductive ObsValue : Type :=
| Layers (layers : gmap string ndarray2)
| Array (dims : list Z) (flat : list Z).

Abbreviation Observation := (gmap string ObsValue).

(** An observation spec: field name to shape tuple. *)
Abbreviation ObsSpec := (gmap string (list Z)).

(** ** s2clientprotocol: the part of ResponseObservation that is written *)

Record ImageData : Type := mk_ImageData {
  bits_per_pixel : Z;
  size_x : Z;
  size_y : Z;
  data : list Byte.byte
}.

Record PlayerCommon : Type := mk_PlayerCommon {
  player_id : Z;
  minerals : Z;
  vespene : Z;
  food_cap : Z;
  food_used : Z;
  food_army : Z;
  food_workers : Z;
  idle_worker_count : Z;
  army_count : Z;
  warp_gate_count : Z;
  larva_count : Z
}.

Record ScoreDetails : Type := mk_ScoreDetails {
  idle_production_time : Z;
  idle_worker_time : Z;
  total_value_units : Z;
  total_value_structures : Z;
  killed_value_units : Z;
  killed_value_structures : Z;
  collected_minerals : Z;
  collected_vespene : Z;
  collection_rate_minerals : Z;
  collection_rate_vespene : Z;
  spent_minerals : Z;
  spent_vespene : Z
}.

Record AvailableAbility : Type := mk_AvailableAbility {
  ability_id : Z;
  requires_point : bool
}.

(** [renders] and [minimap_renders] are the images of
    [obs.feature_layer_data], [render_map] and [render_minimap] those of
    [obs.render_data]; a sub-message that was never written is absent. *)
Record RawObservation : Type := mk_RawObservation {
  game_loop : Z;
  player_common : PlayerCommon;
  abilities : list AvailableAbility;
  score : Z;
  score_details : ScoreDetails;
  renders : gmap string ImageData;
  minimap_renders : gmap string ImageData;
  render_map : option ImageData;
  render_minimap : option ImageData
}.

(** [int(math.ceil(n / 8))] for an int [n]: with true division the quotient
    is a float, exact below 2^53, so the ceiling is the one of the exact
    quotient. *)
Definition ceil_div8 (n : Z) : Z := - ((- n) / 8).

(** [b'\0' * n] *)
Definition zero_bytes (n : Z) : list Byte.byte := py_repeat Byte.x00 n.

(** The values an int32 field of a message holds. *)
Definition is_int32 (v : Z) : bool := (- 2 ^ 31 <=? v) && (v <=? 2 ^ 31 - 1).

(** [message.field = v] for an int32 field: the value stored, or a
    ValueError when it is out of range. *)
Definition int32_field (v : Z) : Result Z :=
  if is_int32 v then Ok v
  else Raise (ValueError ("Value out of range: " ++ fmt_d v)%string).

(** ** Calling a function: binding arguments to parameters *)

(** [params] is the signature, each parameter with its default.  The
    positional arguments fill the parameters from the left, the keyword
    arguments by name; too many positional arguments, an unknown keyword and
    a parameter given twice are [TypeError]s. *)
Definition bind_arguments (params : list (string * PyVal))
    (args : list PyVal) (kwargs : list (string * PyVal))
    : Result (gmap string PyVal) :=
  if (length params <? length args)%nat then
    Raise (TypeError "too many positional arguments")
  else if negb (forallb (λ kv, bool_decide (kv.1 ∈ params.*1)) kwargs) then
    Raise (TypeError "got an unexpected keyword argument")
  else if negb (forallb (λ kv, negb (bool_decide (kv.1 ∈ take (length args) params.*1))) kwargs) then
    Raise (TypeError "got multiple values for argument")
  else
    Ok (list_to_map (zip (params.*1) args) ∪ list_to_map kwargs ∪ list_to_map params).

(** ** class SC2TestEnv *)

Module SC2TestEnv.

Definition DUMMY_MAP_SIZE : PyVal := PyTuple [PyInt 256; PyInt 256].

(** The signature of [__init__], after [self]. *)
Definition signature : list (string * PyVal) :=
  [ ("_only_use_kwargs", PyNone);
    ("map_name", PyNone);
    ("players", PyNone);
    ("feature_screen_size", PyNone);
    ("feature_screen_width", PyNone);
    ("feature_screen_height", PyNone);
    ("feature_minimap_size", PyNone);
    ("feature_minimap_width", PyNone);
    ("feature_minimap_height", PyNone);
    ("rgb_screen_size", PyNone);
    ("rgb_screen_width", PyNone);
    ("rgb_screen_height", PyNone);
    ("rgb_minimap_size", PyNone);
    ("rgb_minimap_width", PyNone);
    ("rgb_minimap_height", PyNone);
    ("action_space", PyNone);
    ("camera_width_world_units", PyNone);
    ("discount", PyFloat 1%float);
    ("visualize", PyBool false);
    ("step_mul", PyNone);
    ("save_replay_episodes", PyInt 0);
    ("replay_dir", PyNone);
    ("game_steps_per_episode", PyNone);
    ("score_index", PyNone);
    ("score_multiplier", PyNone);
    ("use_feature_units", PyBool false);
    ("random_seed", PyNone);
    ("disable_fog", PyBool false) ].

(** [fill(image_data, size, bits)] of [_default_observation]: the image it
    leaves in [image_data].  The three numbers go to int32 fields, in the
    order of lines 296 to 298; the allocation of line 299 is taken to
    succeed. *)
Definition fill (size : list Z) (bits : Z) : Result ImageData :=
  bits_per_pixel ← int32_field bits;
  size0 ← tuple_item size 0;
  y ← int32_field size0;
  size1 ← tuple_item size 1;
  x ← int32_field size1;
  mret (mk_ImageData bits_per_pixel x y (zero_bytes (ceil_div8 (size0 * size1 * bits)))).

(** The raw observation before any image is filled in, lines 262 to 293. *)
Definition scalar_observation : RawObservation :=
  mk_RawObservation
    1
    (mk_PlayerCommon 1 20 50 36 21 6 15 2 6 0 0)
    [mk_AvailableAbility 1 true]
    300
    (mk_ScoreDetails 0 0 190 230 0 0 2130 560 50 20 2000 500)
    ∅ ∅ None None.

Definition set_renders (obs : RawObservation) (r : gmap string ImageData) : RawObservation :=
  mk_RawObservation (game_loop obs) (player_common obs) (abilities obs) (score obs)
    (score_details obs) r (minimap_renders obs) (render_map obs) (render_minimap obs).

Definition set_minimap_renders (obs : RawObservation) (r : gmap string ImageData) : RawObservation :=
  mk_RawObservation (game_loop obs) (player_common obs) (abilities obs) (score obs)
    (score_details obs) (renders obs) r (render_map obs) (render_minimap obs).

Definition set_render_map (obs : RawObservation) (i : ImageData) : RawObservation :=
  mk_RawObservation (game_loop obs) (player_common obs) (abilities obs) (score obs)
    (score_details obs) (renders obs) (minimap_renders obs) (Some i) (render_minimap obs).

Definition set_render_minimap (obs : RawObservation) (i : ImageData) : RawObservation :=
  mk_RawObservation (game_loop obs) (player_common obs) (abilities obs) (score obs)
    (score_details obs) (renders obs) (minimap_renders obs) (render_map obs) (Some i).

(** [for feature in table: fill(getattr(images, feature.name), shape[1:], 8)];
    the shape is looked up on every turn of the loop. *)
Fixpoint fill_layers (table : list string) (dims : list Z)
    (images : gmap string ImageData) : Result (gmap string ImageData) :=
  match table with
  | [] => Ok images
  | name :: rest =>
      image ← fill (drop 1 dims) 8;
      fill_layers rest dims (<[name := image]> images)
  end.

(** Lines 301 to 313: the images written for the fields of [obs_spec]. *)
Definition fill_images (SCREEN_FEATURES MINIMAP_FEATURES : list string)
    (obs_spec : ObsSpec) (obs : RawObservation) : Result RawObservation :=
  obs ← (if dict_contains obs_spec "feature_screen" then
           dims ← dict_item obs_spec "feature_screen";
           r ← fill_layers SCREEN_FEATURES dims (renders obs);
           mret (set_renders obs r)
         else mret obs);
  obs ← (if dict_contains obs_spec "feature_minimap" then
           dims ← dict_item obs_spec "feature_minimap";
           r ← fill_layers MINIMAP_FEATURES dims (minimap_renders obs);
           mret (set_minimap_renders obs r)
         else mret obs);
  obs ← (if dict_contains obs_spec "rgb_screen" then
           dims ← dict_item obs_spec "rgb_screen";
           image ← fill (take 2 dims) 24;
           mret (set_render_map obs image)
         else mret obs);
  obs ← (if dict_contains obs_spec "rgb_screen" then
           dims ← dict_item obs_spec "rgb_minimap";
           image ← fill (take 2 dims) 24;
           mret (set_render_minimap obs image)
         else mret obs);
  mret obs.

(** Lines 317 to 322: the bounding box of the camera on the minimap. *)
Definition camera_box (minimap_camera : ndarray2) : ndarray2 :=
  let minimap_camera := ndarray_fill 0 minimap_camera in
  let height := (fst (shape minimap_camera) / 2)%nat in
  let width := (snd (shape minimap_camera) / 2)%nat in
  ndarray_fill_slice height width 1 minimap_camera.

Definition mark_camera (observation : Observation) : Result Observation :=
  if dict_contains observation "feature_minimap" then
    match observation !! "feature_minimap" with
    | Some (Layers layers) =>
        match layers !! "camera" with
        | Some minimap_camera =>
            Ok (<["feature_minimap" :=
                   Layers (<["camera" := camera_box minimap_camera]> layers)]> observation)
        | None => Raise (AttributeError "camera")
        end
    | _ => Raise (AttributeError "camera")
    end
  else Ok observation.

Section Fixture.

(** The action spec of [features], opaque here. *)
Context {ActSpec : Type}.

(** What the module uses of an instance of [features.Features]. *)
Record Features : Type := mk_Features {
  features_observation_spec : ObsSpec;
  features_action_spec : ActSpec;
  transform_obs : RawObservation → Observation
}.

(** The names of [features.SCREEN_FEATURES] and [features.MINIMAP_FEATURES],
    and the constructor [features.Features], called with keywords only. *)
Variables SCREEN_FEATURES MINIMAP_FEATURES : list string.
Variable new_Features : list (string * PyVal) → Result Features.

(** The attributes of an instance: its own and the inherited ones. *)
Record t : Type := mk {
  _features : Features;
  base : TestEnvironment.t Observation ObsSpec ActSpec
}.

(** [_default_observation], called by the inherited [__init__] once
    [_observation_spec] is set. *)
Definition _default_observation (features : Features)
    (observation_spec : list ObsSpec) : Result Observation :=
  obs_spec ← tuple_item observation_spec 0;
  response_observation ← fill_images SCREEN_FEATURES MINIMAP_FEATURES obs_spec scalar_observation;
  mark_camera (transform_obs features response_observation).

(** [num_agents] of [__init__], lines 246 to 249. *)
Definition count_agents (players : PyVal) : Result Z :=
  if negb (truthy players) then mret 1
  else
    ps ← py_iter players;
    mret (foldr Z.add 0 (map (λ _, 1) (filter (λ p, isinstance p "Agent" = true) ps))).

(** The keywords [__init__] passes to [features.Features], lines 228 to 244. *)
Definition features_kwargs (arg : string → PyVal) : list (string * PyVal) :=
  [ ("feature_screen_size", arg "feature_screen_size");
    ("feature_screen_width", arg "feature_screen_width");
    ("feature_screen_height", arg "feature_screen_height");
    ("feature_minimap_size", arg "feature_minimap_size");
    ("feature_minimap_width", arg "feature_minimap_width");
    ("feature_minimap_height", arg "feature_minimap_height");
    ("rgb_screen_size", arg "rgb_screen_size");
    ("rgb_screen_width", arg "rgb_screen_width");
    ("rgb_screen_height", arg "rgb_screen_height");
    ("rgb_minimap_size", arg "rgb_minimap_size");
    ("rgb_minimap_width", arg "rgb_minimap_width");
    ("rgb_minimap_height", arg "rgb_minimap_height");
    ("use_feature_units", arg "use_feature_units");
    ("map_size", DUMMY_MAP_SIZE);
    ("camera_width_world_units", py_or (arg "camera_width_world_units") (PyInt 24));
    ("action_space", arg "action_space") ].

(** Lines 251 to 255: the inherited [__init__], given the default
    observation it asks the subclass for, then [episode_length = 10]. *)
Definition built (features : Features) (num_agents : Z)
    (observation : Observation) : t :=
  mk features
    (TestEnvironment.set_episode_length
       (TestEnvironment.__init__ num_agents
          (features_observation_spec features)
          (features_action_spec features)
          observation)
       (Steps 10)).

(** Lines 228 to 255: [__init__] past its guard; [arg] reads a parameter. *)
Definition construct (arg : string → PyVal) : Result t :=
  features ← new_Features (features_kwargs arg);
  num_agents ← count_agents (arg "players");
  observation ← _default_observation features
    (py_repeat (features_observation_spec features) num_agents);
  mret (built features num_agents observation).

Definition only_use_kwargs_message : string :=
  "All arguments must be passed as keyword arguments.".

Definition __init__ (args : list PyVal) (kwargs : list (string * PyVal)) : Result t :=
  a ← bind_arguments signature args kwargs;
  let arg := λ name, default PyNone (a !! name) in
  if truthy (arg "_only_use_kwargs") then
    Raise (ValueError only_use_kwargs_message)
  else
    construct arg.

(** The inherited methods run on the inherited attributes. *)
Definition inherited {A} (m : Eff (TestEnvironment.t Observation ObsSpec ActSpec) A)
    : Eff t A :=
  λ self, let '(r, b) := m (base self) in (r, mk (_features self) b).

Definition step {Act} (actions : list (option Act))
    : Eff t (list (TimeStep Observation)) :=
  inherited (TestEnvironment.step actions).

Definition reset {Act} : Eff t (list (TimeStep Observation)) :=
  inherited (TestEnvironment.reset (Act := Act)).

(** [save_replay], with any arguments, does nothing. *)
Definition save_replay (args : list PyVal) (kwargs : list (string * PyVal))
    : Eff t unit := mret tt.

End Fixture.

Arguments Features : clear implicits.
Arguments t : clear implicits.

End SC2TestEnv.

(** ** Driving an environment *)

Section Driver.

Context {Obs ObsSpec ActSpec Act : Type}.

#[local] Abbreviation Env := (TestEnvironment.t Obs ObsSpec ActSpec).

(** The counter [step] leaves when it returns, lines 100 to 103. *)
Definition next_episode_steps (self : Env) : Z :=
  if is_LAST (step_type (TestEnvironment.pick_timestep self)) then 0
  else TestEnvironment._episode_steps self + 1.

(** [k] calls of [step] in a row, each with one [None] per agent: the
    results in order and the final attributes. *)
Fixpoint step_n (k : nat) (self : Env)
    : list (Result (list (TimeStep Obs))) * Env :=
  match k with
  | O => ([], self)
  | S k' =>
      let '(r, self1) :=
        TestEnvironment.step (Act := Act)
          (py_repeat None (TestEnvironment._num_agents self)) self in
      let '(rs, self2) := step_n k' self1 in
      (r :: rs, self2)
  end.

(** What a client does to an environment whose episode length is
    configured: it calls [reset] or [step], or assigns [next_timestep]. *)
Inductive Call : Type :=
| CallReset
| CallStep (actions : list (option Act))
| AssignNextTimestep (ts : TimeStep Obs).

Definition call (self : Env) (c : Call) : Env :=
  match c with
  | CallReset => (TestEnvironment.reset (Act := Act) self).2
  | CallStep actions => (TestEnvironment.step actions self).2
  | AssignNextTimestep ts => TestEnvironment.set_next_timestep self ts
  end.

Definition run (calls : list Call) (self : Env) : Env := foldl call self calls.

(** The step types a list of results shows, call by call and agent by
    agent; a call that raised shows none. *)
Definition step_types (results : list (Result (list (TimeStep Obs))))
    : list (list StepType) :=
  map (λ r, match r with Ok tss => map step_type tss | Raise _ => [] end) results.

End Driver.

(** ** Sample environments *)

Module Samples.

(** An engine with [num_agents] agents, nothing to observe and
    [episode_length] set to 10, as the fixture sets it. *)
Definition engine (num_agents : Z) : TestEnvironment.t unit unit unit :=
  TestEnvironment.set_episode_length
    (TestEnvironment.__init__ num_agents tt tt tt) (Steps 10).

(** The same for one agent, with a template whose [step_type] is [LAST]
    assigned to [next_timestep] and [step] called once. *)
Definition engine_last_template : TestEnvironment.t unit unit unit :=
  (TestEnvironment.step (Act := unit) [None]
     (TestEnvironment.set_next_timestep (engine 1)
        (mkTimeStep LAST 0%float 1%float tt))).2.

(** Names of feature layers, standing in for the tables
    [features.SCREEN_FEATURES] and [features.MINIMAP_FEATURES], which live
    in another module. *)
Definition SCREEN_FEATURES : list string :=
  [ "height_map"; "visibility_map"; "creep"; "power"; "player_id";
    "player_relative"; "unit_type"; "selected"; "unit_hit_points";
    "unit_hit_points_ratio"; "unit_energy"; "unit_energy_ratio";
    "unit_shields"; "unit_shields_ratio"; "unit_density"; "unit_density_aa";
    "effects" ].

Definition MINIMAP_FEATURES : list string :=
  [ "height_map"; "visibility_map"; "creep"; "camera"; "player_id";
    "player_relative"; "selected" ].

(** A stand-in for [transform_obs]: every minimap image becomes a layer of
    the size of the image, every pixel 7, and likewise for the screen. *)
Definition unpack_layer (image : ImageData) : ndarray2 :=
  let h := Z.to_nat (size_y image) in
  let w := Z.to_nat (size_x image) in
  mk_ndarray2 (h, w) (replicate h (replicate w 7)).

Definition transform (raw : RawObservation) : Observation :=
  {[ "feature_screen" := Layers (unpack_layer <$> renders raw);
     "feature_minimap" := Layers (unpack_layer <$> minimap_renders raw) ]}.

(** A stand-in for an instance of [features.Features]: feature layers of 6
    by 4 on the screen and 4 by 6 on the minimap, no action spec. *)
Definition features : SC2TestEnv.Features unit :=
  SC2TestEnv.mk_Features
    {[ "feature_screen" := [17; 6; 4]; "feature_minimap" := [7; 4; 6] ]}
    tt transform.

(** A stand-in for the constructor: it accepts any keywords. *)
Definition new_Features (kwargs : list (string * PyVal))
    : Result (SC2TestEnv.Features unit) := Ok features.

(** The raw observation the fixture fills in for [features]. *)
Definition raw_observation : RawObservation :=
  match SC2TestEnv.fill_images SCREEN_FEATURES MINIMAP_FEATURES
          (SC2TestEnv.features_observation_spec features)
          SC2TestEnv.scalar_observation with
  | Ok raw => raw
  | Raise _ => SC2TestEnv.scalar_observation
  end.

(** A camera layer of 4 by 6, every pixel 7. *)
Definition camera : ndarray2 := mk_ndarray2 (4, 6)%nat (replicate 4 (replicate 6 7)).

(** The fixture for [features], constructed with keywords only. *)
Definition construct (args : list PyVal) (kwargs : list (string * PyVal))
    : Result (SC2TestEnv.t unit) :=
  SC2TestEnv.__init__ SCREEN_FEATURES MINIMAP_FEATURES new_Features args kwargs.

(** The fixture for [features] with no argument at all, and with a roster
    of one bot and two agents. *)
Definition fixture_of (r : Result (SC2TestEnv.t unit)) : SC2TestEnv.t unit :=
  match r with
  | Ok env => env
  | Raise _ => SC2TestEnv.built features 0 ∅
  end.

Definition fixture : SC2TestEnv.t unit := fixture_of (construct [] []).

Definition roster : PyVal :=
  PyList [ PyObj "Bot" [PyInt 1; PyInt 3];
           PyObj "Agent" [PyInt 2];
           PyObj "Agent" [PyInt 3] ].

Definition fixture_of_roster : SC2TestEnv.t unit :=
  fixture_of (construct [] [("players", roster)]).

(** Two agents, [step] called once: the counter is 1. *)
Definition engine_started : TestEnvironment.t unit unit unit :=
  (TestEnvironment.step (Act := unit) [None; None] (engine 2)).2.

(** A client of [engine 2]: a reset, a step, a step with one action too
    few, a new template, and eleven more steps. *)
Definition calls : list (Call (Obs := unit) (Act := unit)) :=
  [ CallReset; CallStep [None; None]; CallStep [None];
    AssignNextTimestep (mkTimeStep MID 1%float 0%float tt) ]
  ++ replicate 11 (CallStep [None; None]).

End Samples.

(** ** _TestEnvironment with its own default observation *)

(** The array of shape [dims] with every element 0, kept as its shape and
    its flat data, as many as the product of the dimensions. *)
Definition zeros_of (dims : list Z) : ObsValue :=
  Array dims (py_repeat 0 (foldr Z.mul 1 dims)).

(** The largest index, and so the largest dimension and size in bytes, of
    an array. *)
Definition intp_max : Z := 2 ^ 63 - 1.

(** numpy's pass over the dimensions of a new array: a dimension of 0 is
    skipped, a negative one is refused, and the size in bytes, multiplied up
    from the item size, has to stay within [intp_max]. *)
Fixpoint np_check_dims (nbytes : Z) (dims : list Z) : Result Z :=
  match dims with
  | [] => Ok nbytes
  | d :: rest =>
      if d =? 0 then np_check_dims nbytes rest
      else if d <? 0 then
        Raise (ValueError "negative dimensions are not allowed")
      else if intp_max <? nbytes * d then
        Raise (ValueError "array is too big; `arr.size * arr.dtype.itemsize` is larger than the maximum possible size.")
      else np_check_dims (nbytes * d) rest
  end.

(** [np.zeros(shape=dims, dtype=np.int32)], items of 4 bytes: a dimension
    that is not an index, a negative dimension and a size in bytes beyond
    [intp_max] are ValueErrors; the allocation itself is taken to succeed. *)
Definition np_zeros (dims : list Z) : Result ObsValue :=
  if forallb (λ d, (- intp_max - 1 <=? d) && (d <=? intp_max)) dims then
    _ ← np_check_dims 4 dims;
    mret (zeros_of dims)
  else
    Raise (ValueError "Maximum allowed dimension exceeded").

Module TestEnvironmentZeros.

(** [_default_observation] of the base class, lines 115 to 120: one array
    of zeros for every key of the spec of the first agent. *)
Definition _default_observation (observation_spec : list ObsSpec)
    : Result Observation :=
  obs_spec ← tuple_item observation_spec 0;
  map_fold
    (λ (key : string) (spec : list Z) (acc : Result Observation),
       observation ← acc;
       zeros ← np_zeros spec;
       mret (<[key := zeros]> observation))
    (Ok ∅) obs_spec.

(** [_TestEnvironment(num_agents, observation_spec, action_spec)] when no
    subclass overrides [_default_observation], lines 56 to 78. *)
Definition construct {ActSpec : Type} (num_agents : Z)
    (observation_spec : ObsSpec) (action_spec : ActSpec)
    : Result (TestEnvironment.t Observation ObsSpec ActSpec) :=
  observation ← _default_observation (py_repeat observation_spec num_agents);
  mret (TestEnvironment.__init__ num_agents observation_spec action_spec observation).

End TestEnvironmentZeros.

(** ** More on driving an environment *)

Section MoreDriver.

Context {Obs ObsSpec ActSpec Act : Type}.

(** A call that is not an assignment. *)
Definition is_method_call (c : Call (Obs := Obs) (Act := Act)) : Prop :=
  match c with
  | AssignNextTimestep _ => False
  | _ => True
  end.

(** What the calls of [step] of one episode of length [L] return when the
    counter starts at 0: the first timestep, [L - 1] times the template and
    the last timestep, each once per agent. *)
Definition one_episode (L : Z) (self : TestEnvironment.t Obs ObsSpec ActSpec)
    : list (Result (list (TimeStep Obs))) :=
  let N := TestEnvironment._num_agents self in
  let template := TestEnvironment.next_timestep self in
  Ok (py_repeat (replace_step_type_reward_discount template FIRST 0%float 1%float) N)
    :: replicate (Z.to_nat (L - 1)) (Ok (py_repeat template N))
    ++ [Ok (py_repeat (replace_step_type template LAST) N)].

End MoreDriver.

(** ** The options of SC2TestEnv *)

Module SC2Options.

(** The parameters whose values [__init__] reads past its guard: those it
    hands to [features.Features], and [players]. *)
Definition read : list string :=
  [ "feature_screen_size"; "feature_screen_width"; "feature_screen_height";
    "feature_minimap_size"; "feature_minimap_width"; "feature_minimap_height";
    "rgb_screen_size"; "rgb_screen_width"; "rgb_screen_height";
    "rgb_minimap_size"; "rgb_minimap_width"; "rgb_minimap_height";
    "use_feature_units"; "camera_width_world_units"; "action_space";
    "players" ].

(** The parameters [__init__] deletes at once, lines 213 to 223. *)
Definition deleted : list string :=
  [ "map_name"; "discount"; "visualize"; "step_mul"; "save_replay_episodes";
    "replay_dir"; "game_steps_per_episode"; "score_index"; "score_multiplier";
    "random_seed"; "disable_fog" ].

End SC2Options.

(** ** More sample values *)

Module MoreSamples.

(** A spec with a vector of 11 entries and a stack of 2 layers of 3 by 4. *)
Definition obs_spec : ObsSpec :=
  {[ "player" := [11]; "feature_screen" := [2; 3; 4] ]}.

(** A spec with both visual fields, 4 by 6 and 2 by 3. *)
Definition rgb_spec : ObsSpec :=
  {[ "rgb_screen" := [4; 6; 3]; "rgb_minimap" := [2; 3; 3] ]}.

(** An observation with a minimap of two layers and one more field. *)
Definition observation : Observation :=
  {[ "feature_minimap" :=
       Layers {[ "camera" := Samples.camera;
                 "creep" := mk_ndarray2 (1, 2)%nat [[5; 5]] ]};
     "player" := Array [2] [20; 50] ]}.

(** An engine as constructed, with the default, unbounded episode length. *)
Definition unbounded (num_agents : Z) : TestEnvironment.t unit unit unit :=
  TestEnvironment.__init__ num_agents tt tt tt.

(** Calls of [reset] and [step] only. *)
Definition method_calls : list (Call (Obs := unit) (Act := unit)) :=
  [ CallReset; CallStep [None; None]; CallStep [None]; CallStep [Some tt; None] ].

(** The raw observation filled in for [rgb_spec], and [observation] with
    its camera marked. *)
Definition rgb_raw : RawObservation :=
  match SC2TestEnv.fill_images Samples.SCREEN_FEATURES Samples.MINIMAP_FEATURES
          rgb_spec SC2TestEnv.scalar_observation with
  | Ok raw => raw
  | Raise _ => SC2TestEnv.scalar_observation
  end.

Definition marked : Observation :=
  match SC2TestEnv.mark_camera observation with
  | Ok o => o
  | Raise _ => ∅
  end.



Definition image : ImageData :=
  match SC2TestEnv.fill [4; 6] 24 with
  | Ok i => i
  | Raise _ => mk_ImageData 0 0 0 []
  end.

End MoreSamples.

(** ** The step/reset protocol of _TestEnvironment *)

Section EngineProperties.

Context {Obs ObsSpec ActSpec Act : Type}.

#[local] Abbreviation Env := (TestEnvironment.t Obs ObsSpec ActSpec).
#[local] Abbreviation step := (TestEnvironment.step (Obs := Obs) (ObsSpec := ObsSpec)
                    (ActSpec := ActSpec) (Act := Act)).
#[local] Abbreviation reset := (TestEnvironment.reset (Obs := Obs) (ObsSpec := ObsSpec)
                     (ActSpec := ActSpec) (Act := Act)).

Implicit Types (self : Env) (actions : list (option Act)).

Lemma step_returns self actions :
  py_len actions = TestEnvironment._num_agents self →
  step actions self =
    (Ok (py_repeat (TestEnvironment.pick_timestep self) (TestEnvironment._num_agents self)),
     TestEnvironment.set_episode_steps self (next_episode_steps self)).
Proof.
  intros Hlen. unfold TestEnvironment.step, next_episode_steps.
  unfold mbind, Eff_bind, get_self, raise.
  rewrite Hlen, Z.eqb_refl. cbn [negb].
  destruct (is_LAST _); reflexivity.
Qed.

Lemma step_raises self actions :
  py_len actions ≠ TestEnvironment._num_agents self →
  step actions self =
    (Raise (ValueError (TestEnvironment.arity_message
                          (TestEnvironment._num_agents self) (py_len actions))),
     self).
Proof.
  intros Hlen. unfold TestEnvironment.step.
  unfold mbind, Eff_bind, get_self, raise.
  apply Z.eqb_neq in Hlen. rewrite Hlen. reflexivity.
Qed.

Lemma reset_unfold self :
  reset self =
    step (py_repeat None (TestEnvironment._num_agents self))
         (TestEnvironment.set_episode_steps self 0).
Proof. reflexivity. Qed.

Lemma py_len_repeat {A} (x : A) (n : Z) : 0 ≤ n → py_len (py_repeat x n) = n.
Proof.
  intros Hn. unfold py_len, py_repeat. rewrite length_replicate. lia.
Qed.

Lemma elem_of_py_repeat {A} (x y : A) (n : Z) : y ∈ py_repeat x n → y = x.
Proof. unfold py_repeat. intros H. by apply elem_of_replicate in H as [-> _]. Qed.

Lemma step_ok_inv self actions tss self' :
  step actions self = (Ok tss, self') →
  py_len actions = TestEnvironment._num_agents self ∧
  tss = py_repeat (TestEnvironment.pick_timestep self) (TestEnvironment._num_agents self) ∧
  self' = TestEnvironment.set_episode_steps self (next_episode_steps self).
Proof.
  intros H.
  destruct (decide (py_len actions = TestEnvironment._num_agents self)) as [Hlen | Hlen].
  - rewrite (step_returns _ _ Hlen) in H. by inversion H.
  - rewrite (step_raises _ _ Hlen) in H. discriminate.
Qed.

Lemma pick_timestep_observation self :
  observation (TestEnvironment.pick_timestep self) =
  observation (TestEnvironment.next_timestep self).
Proof.
  unfold TestEnvironment.pick_timestep.
  destruct (_ =? 0); [reflexivity |]. by destruct (ge_length _ _).
Qed.

(** C1, as amended: on every call of [step] that returns, each returned
    timestep carries the observation of the template; when the counter is 0
    its step type is FIRST, its reward 0 and its discount 1, whatever the
    template says; otherwise reward and discount are the template's, the step
    type is LAST when the counter has reached the episode length, and below
    the episode length the timestep is the template itself, step type
    included.  For a template whose step type is MID, as constructed, the
    step type is then LAST exactly when the counter has reached the episode
    length and MID otherwise. *)
Theorem step_type_contract self actions tss self' :
  step actions self = (Ok tss, self') →
  ∀ ts, ts ∈ tss →
    let template := TestEnvironment.next_timestep self in
    let steps := TestEnvironment._episode_steps self in
    let len := TestEnvironment.episode_length self in
    observation ts = observation template ∧
    (steps = 0 →
       step_type ts = FIRST ∧ reward ts = 0%float ∧ discount ts = 1%float) ∧
    (steps ≠ 0 →
       reward ts = reward template ∧ discount ts = discount template ∧
       (ge_length steps len = true → step_type ts = LAST) ∧
       (ge_length steps len = false → ts = template) ∧
       (step_type template = MID →
          (step_type ts = LAST ↔ ge_length steps len = true) ∧
          (step_type ts = MID ↔ ge_length steps len = false))).
Proof.
  intros H ts Hts template steps len.
  apply step_ok_inv in H as (_ & -> & _).
  apply elem_of_py_repeat in Hts as ->.
  split; [apply pick_timestep_observation |].
  unfold TestEnvironment.pick_timestep. fold steps len template.
  split.
  - intros ->. done.
  - intros Hne. apply Z.eqb_neq in Hne. rewrite Hne.
    destruct (ge_length steps len) eqn:Hge; cbn; intuition congruence.
Qed.

(** C3: with at least one agent, every call of [step] and of [reset] that
    returns gives exactly one timestep per agent, and all of them are the
    same timestep. *)
Theorem timesteps_one_per_agent self :
  1 ≤ TestEnvironment._num_agents self →
  (∀ actions tss self',
     step actions self = (Ok tss, self') →
     py_len tss = TestEnvironment._num_agents self ∧
     (∃ ts, tss = py_repeat ts (TestEnvironment._num_agents self)) ∧
     (∀ t1 t2, t1 ∈ tss → t2 ∈ tss →
        t1 = t2 ∧ step_type t1 = step_type t2 ∧ reward t1 = reward t2 ∧
        discount t1 = discount t2 ∧ observation t1 = observation t2)) ∧
  (∀ tss self',
     reset self = (Ok tss, self') →
     py_len tss = TestEnvironment._num_agents self ∧
     (∃ ts, tss = py_repeat ts (TestEnvironment._num_agents self)) ∧
     (∀ t1 t2, t1 ∈ tss → t2 ∈ tss →
        t1 = t2 ∧ step_type t1 = step_type t2 ∧ reward t1 = reward t2 ∧
        discount t1 = discount t2 ∧ observation t1 = observation t2)).
Proof.
  intros HN.
  assert (Hstep : ∀ s actions tss self',
      TestEnvironment._num_agents s = TestEnvironment._num_agents self →
      step actions s = (Ok tss, self') →
      py_len tss = TestEnvironment._num_agents self ∧
      (∃ ts, tss = py_repeat ts (TestEnvironment._num_agents self)) ∧
      (∀ t1 t2, t1 ∈ tss → t2 ∈ tss →
         t1 = t2 ∧ step_type t1 = step_type t2 ∧ reward t1 = reward t2 ∧
         discount t1 = discount t2 ∧ observation t1 = observation t2)).
  { intros s actions tss self' HNs H.
    apply step_ok_inv in H as (_ & -> & _). rewrite HNs.
    split; [apply py_len_repeat; lia |].
    split; [by eexists |].
    intros t1 t2 H1 H2.
    apply elem_of_py_repeat in H1 as ->. apply elem_of_py_repeat in H2 as ->.
    done. }
  split.
  - intros actions tss self'. by apply Hstep.
  - intros tss self'. rewrite reset_unfold. by apply Hstep.
Qed.

Lemma set_episode_steps_same self :
  TestEnvironment.set_episode_steps self (TestEnvironment._episode_steps self) = self.
Proof. by destruct self. Qed.

Lemma reset_at_zero self :
  TestEnvironment._episode_steps self = 0 →
  reset self = step (py_repeat None (TestEnvironment._num_agents self)) self.
Proof.
  intros H0. rewrite reset_unfold, <- H0. by rewrite set_episode_steps_same.
Qed.

(** C4: [reset] sets the counter to 0 and returns what [step] returns for
    one [None] per agent; so right after construction, or whenever the
    counter is 0, and right after a call of [step] that returned a LAST
    timestep, [reset] and that call of [step] give the same result and leave
    the same attributes. *)
Theorem reset_is_first_step :
  (∀ self,
     reset self =
       step (py_repeat None (TestEnvironment._num_agents self))
            (TestEnvironment.set_episode_steps self 0)) ∧
  (∀ num_agents observation_spec action_spec default_observation,
     let self :=
       TestEnvironment.__init__ num_agents observation_spec action_spec
         default_observation in
     reset self = step (py_repeat None num_agents) self) ∧
  (∀ self,
     TestEnvironment._episode_steps self = 0 →
     reset self = step (py_repeat None (TestEnvironment._num_agents self)) self) ∧
  (∀ self actions tss self',
     step actions self = (Ok tss, self') →
     (∃ ts, ts ∈ tss ∧ step_type ts = LAST) →
     reset self' = step (py_repeat None (TestEnvironment._num_agents self')) self').
Proof.
  split; [intros; apply reset_unfold |].
  split; [intros; by apply reset_at_zero |].
  split; [apply reset_at_zero |].
  intros self actions tss self' H (ts & Hts & HL).
  apply step_ok_inv in H as (_ & -> & ->).
  apply elem_of_py_repeat in Hts as ->.
  apply reset_at_zero. unfold next_episode_steps. by rewrite HL.
Qed.

(** The decimal numeral ['%d'] prints reads back as the number printed. *)
Lemma fmt_d_reads_back (z : Z) :
  option_map Z.of_int (NilZero.int_of_string (fmt_d z)) = Some z.
Proof.
  unfold fmt_d. rewrite NilZero.isi.
  - cbn. f_equal. apply DecimalZ.of_to.
  - destruct z as [| q | q]; cbn; try discriminate.
    intros [= H]. by apply DecimalPos.Unsigned.to_uint_nonnil in H.
  - destruct z as [| q | q]; cbn; try discriminate.
    intros [= H]. by apply DecimalPos.Unsigned.to_uint_nonnil in H.
Qed.

(** C5: [step] raises exactly when the number of actions is not the number
    of agents; what it raises is a ValueError whose message spells out the
    expected and the received count in decimal, and it leaves every
    attribute as it was, so that any call after it gives what it would have
    given without the failed call. *)
Theorem step_arity_error self actions :
  ((∃ e, (step actions self).1 = Raise e) ↔
   py_len actions ≠ TestEnvironment._num_agents self) ∧
  (py_len actions ≠ TestEnvironment._num_agents self →
   let expected := TestEnvironment._num_agents self in
   let received := py_len actions in
   let msg := TestEnvironment.arity_message expected received in
   step actions self = (Raise (ValueError msg), self) ∧
   msg = ("Expected " ++ fmt_d expected ++ " actions, received "
            ++ fmt_d received ++ ".")%string ∧
   option_map Z.of_int (NilZero.int_of_string (fmt_d expected)) = Some expected ∧
   option_map Z.of_int (NilZero.int_of_string (fmt_d received)) = Some received ∧
   (∀ actions', step actions' (step actions self).2 = step actions' self) ∧
   reset (step actions self).2 = reset self).
Proof.
  split.
  - split.
    + intros [e He] Hlen. rewrite (step_returns _ _ Hlen) in He. discriminate.
    + intros Hlen. rewrite (step_raises _ _ Hlen). by eexists.
  - intros Hlen expected received msg.
    rewrite (step_raises _ _ Hlen).
    repeat split; auto using fmt_d_reads_back.
Qed.

(** The counter stays within the episode length over one call. *)
Lemma call_keeps_bound (L : Z) self (c : Call (Obs := Obs) (Act := Act)) :
  1 ≤ L →
  TestEnvironment.episode_length self = Steps L →
  0 ≤ TestEnvironment._episode_steps self ≤ L →
  TestEnvironment.episode_length (call self c) = Steps L ∧
  0 ≤ TestEnvironment._episode_steps (call self c) ≤ L.
Proof.
  intros HL Hlen Hbound.
  assert (Hstep : ∀ s actions,
      TestEnvironment.episode_length s = Steps L →
      0 ≤ TestEnvironment._episode_steps s ≤ L →
      TestEnvironment.episode_length (step actions s).2 = Steps L ∧
      0 ≤ TestEnvironment._episode_steps (step actions s).2 ≤ L).
  { intros s actions Hs Hb.
    destruct (decide (py_len actions = TestEnvironment._num_agents s)) as [Ha | Ha].
    - rewrite (step_returns _ _ Ha). cbn. split; [done |].
      unfold next_episode_steps, TestEnvironment.pick_timestep.
      rewrite Hs. cbn.
      destruct (Z.eqb_spec (TestEnvironment._episode_steps s) 0) as [-> | Hz]; cbn; [lia |].
      destruct (Z.leb_spec L (TestEnvironment._episode_steps s)); cbn; [lia |].
      destruct (is_LAST _); lia.
    - by rewrite (step_raises _ _ Ha). }
  destruct c as [| actions | ts]; cbn.
  - rewrite reset_unfold. apply Hstep; cbn; [done | lia].
  - by apply Hstep.
  - done.
Qed.

(** C10: with the episode length configured to an integer L >= 1 at
    construction, the counter is 0 at construction and stays between 0 and L
    after every sequence of calls of [reset] and [step], failed ones
    included, and of assignments to [next_timestep]; a call of [step] that
    returns sets the counter to 0 when it produced a LAST timestep and adds
    exactly 1 to it otherwise. *)
Theorem episode_steps_bounded (L : Z) num_agents observation_spec action_spec
    default_observation (calls : list (Call (Obs := Obs) (Act := Act))) :
  1 ≤ L →
  let self0 :=
    TestEnvironment.set_episode_length
      (TestEnvironment.__init__ num_agents observation_spec action_spec
         default_observation) (Steps L) in
  TestEnvironment._episode_steps self0 = 0 ∧
  0 ≤ TestEnvironment._episode_steps (run calls self0) ≤ L ∧
  (∀ actions tss self',
     step actions (run calls self0) = (Ok tss, self') →
     TestEnvironment._episode_steps self' =
       (if is_LAST (step_type (TestEnvironment.pick_timestep (run calls self0)))
        then 0
        else TestEnvironment._episode_steps (run calls self0) + 1) ∧
     (∀ ts, ts ∈ tss → ts = TestEnvironment.pick_timestep (run calls self0)) ∧
     0 ≤ TestEnvironment._episode_steps self' ≤ L).
Proof.
  intros HL self0.
  assert (Hinv : TestEnvironment.episode_length (run calls self0) = Steps L ∧
                 0 ≤ TestEnvironment._episode_steps (run calls self0) ≤ L).
  { unfold run.
    assert (H0 : TestEnvironment.episode_length self0 = Steps L ∧
                 0 ≤ TestEnvironment._episode_steps self0 ≤ L) by (cbn; split; [done | lia]).
    revert H0. generalize self0. clear self0.
    induction calls as [| c calls IH]; intros s Hs; [done |].
    cbn. apply IH. destruct Hs as [Hlen Hb].
    exact (call_keeps_bound L s c HL Hlen Hb). }
  split; [reflexivity |]. split; [apply Hinv |].
  intros actions tss self' H.
  pose proof (call_keeps_bound L (run calls self0) (CallStep actions) HL
                (proj1 Hinv) (proj2 Hinv)) as [_ Hb].
  cbn in Hb. rewrite H in Hb. cbn in Hb.
  apply step_ok_inv in H as (_ & -> & ->).
  split; [reflexivity |]. split; [| exact Hb].
  intros ts Hts. by apply elem_of_py_repeat in Hts.
Qed.

Lemma set_episode_steps_twice self (a b : Z) :
  TestEnvironment.set_episode_steps (TestEnvironment.set_episode_steps self a) b =
  TestEnvironment.set_episode_steps self b.
Proof. reflexivity. Qed.

Lemma step_n_app (a b : nat) self :
  step_n (Act := Act) (a + b) self =
    let '(r1, s1) := step_n (Act := Act) a self in
    let '(r2, s2) := step_n (Act := Act) b s1 in
    (r1 ++ r2, s2).
Proof.
  revert self. induction a as [| a IH]; intros self; cbn.
  - by destruct (step_n b self).
  - destruct (step _ self) as [r s1]. rewrite IH.
    destruct (step_n a s1) as [r1 s2]. by destruct (step_n b s2).
Qed.

(** One call with one [None] per agent, for a number of agents that is not
    negative. *)
Lemma step_none self :
  0 ≤ TestEnvironment._num_agents self →
  step (py_repeat None (TestEnvironment._num_agents self)) self =
    (Ok (py_repeat (TestEnvironment.pick_timestep self) (TestEnvironment._num_agents self)),
     TestEnvironment.set_episode_steps self (next_episode_steps self)).
Proof. intros HN. apply step_returns. by apply py_len_repeat. Qed.

Lemma step_none_at self (c : Z) :
  0 ≤ TestEnvironment._num_agents self →
  step (py_repeat None (TestEnvironment._num_agents self))
       (TestEnvironment.set_episode_steps self c) =
    (Ok (py_repeat (TestEnvironment.pick_timestep (TestEnvironment.set_episode_steps self c))
           (TestEnvironment._num_agents self)),
     TestEnvironment.set_episode_steps self
       (next_episode_steps (TestEnvironment.set_episode_steps self c))).
Proof. intros HN. by apply (step_none (TestEnvironment.set_episode_steps self c)). Qed.

Section Episode.

Variable L : Z.
Variable self : Env.
Hypothesis L_pos : 1 ≤ L.
Hypothesis agents_nonneg : 0 ≤ TestEnvironment._num_agents self.
Hypothesis length_is_L : TestEnvironment.episode_length self = Steps L.
Hypothesis template_is_MID : step_type (TestEnvironment.next_timestep self) = MID.

#[local] Abbreviation N := (TestEnvironment._num_agents self).
#[local] Abbreviation template := (TestEnvironment.next_timestep self).
#[local] Abbreviation first :=
  (replace_step_type_reward_discount template FIRST 0%float 1%float).
#[local] Abbreviation last := (replace_step_type template LAST).
#[local] Abbreviation at_steps := (TestEnvironment.set_episode_steps self).

Lemma first_step : step (py_repeat None N) (at_steps 0) = (Ok (py_repeat first N), at_steps 1).
Proof. by rewrite step_none_at. Qed.

Lemma mid_step (c : Z) :
  1 ≤ c < L →
  step (py_repeat None N) (at_steps c) = (Ok (py_repeat template N), at_steps (c + 1)).
Proof.
  intros Hc. rewrite step_none_at by done.
  unfold next_episode_steps, TestEnvironment.pick_timestep. cbn.
  rewrite length_is_L. cbn.
  destruct (Z.eqb_spec c 0); [lia |]. destruct (Z.leb_spec L c); [lia |].
  by rewrite template_is_MID.
Qed.

Lemma last_step : step (py_repeat None N) (at_steps L) = (Ok (py_repeat last N), at_steps 0).
Proof.
  rewrite step_none_at by done.
  unfold next_episode_steps, TestEnvironment.pick_timestep. cbn.
  rewrite length_is_L. cbn.
  destruct (Z.eqb_spec L 0); [lia |]. destruct (Z.leb_spec L L); [| lia].
  done.
Qed.

Lemma mid_steps (k : nat) (c : Z) :
  1 ≤ c → c + Z.of_nat k ≤ L →
  step_n (Act := Act) k (at_steps c) =
    (replicate k (Ok (py_repeat template N)), at_steps (c + Z.of_nat k)).
Proof.
  revert c. induction k as [| k IH]; intros c Hc Hk.
  - cbn. by rewrite Z.add_0_r.
  - cbn [step_n replicate].
    change (TestEnvironment._num_agents (at_steps c)) with N.
    rewrite mid_step by lia. rewrite IH by lia.
    do 2 f_equal. lia.
Qed.

(** A whole episode and the call after it, from a counter at 0. *)
Lemma episode_from_zero :
  step_n (Act := Act) (S (Z.to_nat (L - 1) + 2)) (at_steps 0) =
    (Ok (py_repeat first N)
       :: replicate (Z.to_nat (L - 1)) (Ok (py_repeat template N))
       ++ [Ok (py_repeat last N); Ok (py_repeat first N)],
     at_steps 1).
Proof.
  cbn [step_n]. change (TestEnvironment._num_agents (at_steps 0)) with N.
  rewrite first_step, step_n_app, mid_steps by lia.
  replace (1 + Z.of_nat (Z.to_nat (L - 1))) with L by lia.
  cbn [step_n]. change (TestEnvironment._num_agents (at_steps L)) with N.
  rewrite last_step. change (TestEnvironment._num_agents (at_steps 0)) with N.
  by rewrite first_step.
Qed.

End Episode.

End EngineProperties.

(** ** The default observation of SC2TestEnv *)

Section ObservationProperties.

Lemma update_prefix_lookup {A} (n : nat) (f : A → A) (l : list A) (i : nat) :
  update_prefix n f l !! i = if (i <? n)%nat then f <$> l !! i else l !! i.
Proof.
  revert l i. induction n as [| n IH]; intros l i; [done |].
  destruct l as [| x l]; cbn [update_prefix].
  - rewrite lookup_nil. by destruct (i <? S n)%nat.
  - destruct i as [| i]; [done |]. cbn [lookup list_lookup]. by rewrite IH.
Qed.

Lemma update_prefix_length {A} (n : nat) (f : A → A) (l : list A) :
  length (update_prefix n f l) = length l.
Proof.
  revert l. induction n as [| n IH]; intros [| x l]; cbn; try done.
  by rewrite IH.
Qed.

Lemma camera_box_shape (a : ndarray2) : shape (SC2TestEnv.camera_box a) = shape a.
Proof. reflexivity. Qed.

Lemma camera_box_well_shaped (a : ndarray2) :
  well_shaped a → well_shaped (SC2TestEnv.camera_box a).
Proof.
  intros [Hrows Hcols]. split; cbn.
  - by rewrite update_prefix_length, length_map.
  - apply Forall_lookup. intros i r Hr.
    rewrite update_prefix_lookup, list_lookup_fmap in Hr.
    destruct (rows a !! i) as [r0 |] eqn:Hr0;
      [| by destruct (_ <? _)%nat].
    pose proof (Forall_lookup_1 _ _ _ _ Hcols Hr0) as Hlen. cbn in Hlen.
    destruct (_ <? _)%nat; cbn in Hr; injection Hr as <-.
    + by rewrite update_prefix_length, length_map.
    + by rewrite length_map.
Qed.

(** The pixels of the camera layer after lines 320 to 322. *)
Lemma camera_box_item (a : ndarray2) (i j : nat) :
  well_shaped a →
  (i < fst (shape a))%nat → (j < snd (shape a))%nat →
  item (SC2TestEnv.camera_box a) i j =
    Some (if (i <? fst (shape a) / 2)%nat && (j <? snd (shape a) / 2)%nat
          then 1 else 0).
Proof.
  intros [Hrows Hcols] Hi Hj.
  unfold item, SC2TestEnv.camera_box, ndarray_fill_slice, ndarray_fill.
  cbn [rows shape].
  generalize (fst (shape a) / 2)%nat (snd (shape a) / 2)%nat. intros h w.
  rewrite update_prefix_lookup, list_lookup_fmap.
  destruct (lookup_lt_is_Some_2 (rows a) i) as [r Hr]; [lia |].
  pose proof (Forall_lookup_1 _ _ _ _ Hcols Hr) as Hlen. cbn beta in Hlen.
  destruct (lookup_lt_is_Some_2 r j) as [x Hx]; [lia |].
  rewrite Hr.
  destruct (i <? h)%nat; cbn [fmap option_fmap option_map mbind option_bind andb].
  - rewrite update_prefix_lookup, list_lookup_fmap, Hx.
    by destruct (j <? w)%nat.
  - by rewrite list_lookup_fmap, Hx.
Qed.

Context {ActSpec : Type}.
Variables SCREEN_FEATURES MINIMAP_FEATURES : list string.

(** C6: when the observation that [transform_obs] returns has a minimap
    camera layer of shape (H, W), the default observation of the fixture has
    that layer with the same shape, 1 in rows [0, H // 2) and columns
    [0, W // 2) and 0 everywhere else. *)
Theorem minimap_camera_quadrant (features : SC2TestEnv.Features ActSpec)
    (observation_spec : list ObsSpec) (obs_spec : ObsSpec) (raw : RawObservation)
    (layers : gmap string ndarray2) (camera : ndarray2) (H W : nat) :
  tuple_item observation_spec 0 = Ok obs_spec →
  SC2TestEnv.fill_images SCREEN_FEATURES MINIMAP_FEATURES obs_spec
    SC2TestEnv.scalar_observation = Ok raw →
  SC2TestEnv.transform_obs features raw !! "feature_minimap" = Some (Layers layers) →
  layers !! "camera" = Some camera →
  shape camera = (H, W) →
  well_shaped camera →
  ∃ observation layers' camera',
    SC2TestEnv._default_observation SCREEN_FEATURES MINIMAP_FEATURES features
      observation_spec = Ok observation ∧
    observation !! "feature_minimap" = Some (Layers layers') ∧
    layers' !! "camera" = Some camera' ∧
    camera' = SC2TestEnv.camera_box camera ∧
    shape camera' = (H, W) ∧
    well_shaped camera' ∧
    ∀ i j, (i < H)%nat → (j < W)%nat →
      item camera' i j =
        Some (if (i <? H / 2)%nat && (j <? W / 2)%nat then 1 else 0).
Proof.
  intros Hspec Hfill Hmm Hcam Hshape Hwf.
  eexists _, _, (SC2TestEnv.camera_box camera).
  split.
  { unfold SC2TestEnv._default_observation. rewrite Hspec. cbn.
    rewrite Hfill. cbn. unfold SC2TestEnv.mark_camera, dict_contains.
    rewrite Hmm, Hcam. rewrite bool_decide_eq_true_2 by by eexists.
    reflexivity. }
  split; [by rewrite lookup_insert_eq |].
  split; [by rewrite lookup_insert_eq |].
  split; [done |].
  split; [by rewrite camera_box_shape |].
  split; [by apply camera_box_well_shaped |].
  intros i j Hi Hj.
  rewrite camera_box_item; rewrite ?Hshape; done.
Qed.

End ObservationProperties.

(** ** The construction of SC2TestEnv *)

Section FixtureProperties.

Context {ActSpec : Type}.
Variables SCREEN_FEATURES MINIMAP_FEATURES : list string.
Variable new_Features : list (string * PyVal) → Result (SC2TestEnv.Features ActSpec).

#[local] Abbreviation Fixture := (SC2TestEnv.t ActSpec).
#[local] Abbreviation init :=
  (SC2TestEnv.__init__ SCREEN_FEATURES MINIMAP_FEATURES new_Features).
#[local] Abbreviation construct :=
  (SC2TestEnv.construct SCREEN_FEATURES MINIMAP_FEATURES new_Features).
#[local] Abbreviation default_observation :=
  (SC2TestEnv._default_observation SCREEN_FEATURES MINIMAP_FEATURES).

Lemma construct_ok (arg : string → PyVal) (env : Fixture) :
  construct arg = Ok env ↔
  ∃ features num_agents observation,
    new_Features (SC2TestEnv.features_kwargs arg) = Ok features ∧
    SC2TestEnv.count_agents (arg "players") = Ok num_agents ∧
    default_observation features
      (py_repeat (SC2TestEnv.features_observation_spec features) num_agents)
      = Ok observation ∧
    env = SC2TestEnv.built features num_agents observation.
Proof.
  unfold SC2TestEnv.construct, mbind, Result_bind, mret, Result_ret.
  split.
  - destruct (new_Features _) as [features |]; [| done].
    destruct (SC2TestEnv.count_agents _) as [n |]; [| done].
    destruct (SC2TestEnv._default_observation _ _ _ _) as [o |] eqn:Ho; [| done].
    intros [= <-]. by eexists _, _, _.
  - intros (features & n & o & -> & -> & -> & ->). done.
Qed.

Lemma init_guard (args : list PyVal) (kwargs : list (string * PyVal))
    (a : gmap string PyVal) :
  bind_arguments SC2TestEnv.signature args kwargs = Ok a →
  init args kwargs =
    if truthy (default PyNone (a !! "_only_use_kwargs"))
    then Raise (ValueError SC2TestEnv.only_use_kwargs_message)
    else construct (λ name, default PyNone (a !! name)).
Proof. intros Ha. unfold SC2TestEnv.__init__. by rewrite Ha. Qed.

Lemma init_ok (args : list PyVal) (kwargs : list (string * PyVal)) (env : Fixture) :
  init args kwargs = Ok env →
  ∃ a,
    bind_arguments SC2TestEnv.signature args kwargs = Ok a ∧
    truthy (default PyNone (a !! "_only_use_kwargs")) = false ∧
    construct (λ name, default PyNone (a !! name)) = Ok env.
Proof.
  intros H.
  destruct (bind_arguments SC2TestEnv.signature args kwargs) as [a |] eqn:Ha.
  - rewrite (init_guard _ _ _ Ha) in H. exists a.
    by destruct (truthy _).
  - unfold SC2TestEnv.__init__ in H. by rewrite Ha in H.
Qed.

Lemma bind_arguments_ok (params : list (string * PyVal)) (args : list PyVal)
    (kwargs : list (string * PyVal)) (a : gmap string PyVal) :
  bind_arguments params args kwargs = Ok a →
  a = list_to_map (zip (params.*1) args) ∪ list_to_map kwargs ∪ list_to_map params.
Proof.
  unfold bind_arguments.
  destruct (length params <? length args)%nat; [discriminate |].
  destruct (negb (forallb _ kwargs)); [discriminate |].
  destruct (negb (forallb _ kwargs)); [discriminate |].
  by intros [= <-].
Qed.

(** A first positional argument is the value of the first parameter. *)
Lemma bind_first_positional (k : string) (d : PyVal)
    (params : list (string * PyVal)) (v : PyVal) (rest : list PyVal)
    (kwargs : list (string * PyVal)) (a : gmap string PyVal) :
  bind_arguments ((k, d) :: params) (v :: rest) kwargs = Ok a →
  a !! k = Some v.
Proof.
  intros ->%bind_arguments_ok.
  apply lookup_union_Some_l, lookup_union_Some_l.
  cbn [fmap list_fmap zip zip_with fst list_to_map foldr].
  apply lookup_insert_eq.
Qed.

(** Without positional arguments and without its keyword, the first
    parameter has its default. *)
Lemma bind_no_positional (k : string) (d : PyVal)
    (params : list (string * PyVal))
    (kwargs : list (string * PyVal)) (a : gmap string PyVal) :
  bind_arguments ((k, d) :: params) [] kwargs = Ok a →
  k ∉ kwargs.*1 →
  a !! k = Some d.
Proof.
  intros ->%bind_arguments_ok Hnot.
  apply lookup_union_Some_raw. right. split.
  - apply lookup_union_None. split; [done |].
    by apply not_elem_of_list_to_map_1.
  - cbn [list_to_map foldr]. apply lookup_insert_eq.
Qed.

Lemma sum_of_ones {A} (l : list A) :
  foldr Z.add 0 (map (λ _, 1) l) = Z.of_nat (length l).
Proof. induction l as [| x l IH]; cbn [foldr map length]; lia. Qed.

Lemma count_agents_nonneg (players : PyVal) (n : Z) :
  SC2TestEnv.count_agents players = Ok n → 0 ≤ n.
Proof.
  unfold SC2TestEnv.count_agents.
  destruct (negb (truthy players)); [intros [= <-]; lia |].
  destruct (py_iter players) as [ps |]; [| done].
  cbn. rewrite sum_of_ones. intros [= <-]. lia.
Qed.

(** The default observation needs the spec of a first agent. *)
Lemma default_observation_agents (features : SC2TestEnv.Features ActSpec)
    (spec : ObsSpec) (n : Z) (observation : Observation) :
  default_observation features (py_repeat spec n) = Ok observation → 1 ≤ n.
Proof.
  unfold SC2TestEnv._default_observation, tuple_item, py_repeat.
  destruct (Z.to_nat n) as [| k] eqn:Hk; [done |]. lia.
Qed.

(** What a successful construction leaves in the inherited attributes. *)
Lemma init_attributes (args : list PyVal) (kwargs : list (string * PyVal))
    (env : Fixture) :
  init args kwargs = Ok env →
  ∃ a n,
    bind_arguments SC2TestEnv.signature args kwargs = Ok a ∧
    SC2TestEnv.count_agents (default PyNone (a !! "players")) = Ok n ∧
    1 ≤ n ∧
    TestEnvironment._num_agents (SC2TestEnv.base env) = n ∧
    TestEnvironment._episode_steps (SC2TestEnv.base env) = 0 ∧
    TestEnvironment.episode_length (SC2TestEnv.base env) = Steps 10 ∧
    step_type (TestEnvironment.next_timestep (SC2TestEnv.base env)) = MID ∧
    TestEnvironment.observation_spec (SC2TestEnv.base env) =
      py_repeat (SC2TestEnv.features_observation_spec (SC2TestEnv._features env)) n ∧
    TestEnvironment.action_spec (SC2TestEnv.base env) =
      py_repeat (SC2TestEnv.features_action_spec (SC2TestEnv._features env)) n.
Proof.
  intros (a & Ha & _ & Hc)%init_ok.
  apply construct_ok in Hc as (features & n & o & _ & Hn & Ho & ->).
  exists a, n. cbn. repeat split; try done.
  by apply default_observation_agents in Ho.
Qed.

Lemma fixture_step_unfold {Act} (actions : list (option Act)) (env : Fixture) :
  SC2TestEnv.step actions env =
    ((TestEnvironment.step actions (SC2TestEnv.base env)).1,
     SC2TestEnv.mk (SC2TestEnv._features env)
       (TestEnvironment.step actions (SC2TestEnv.base env)).2).
Proof.
  unfold SC2TestEnv.step, SC2TestEnv.inherited.
  by destruct (TestEnvironment.step actions (SC2TestEnv.base env)).
Qed.

Lemma fixture_reset_unfold {Act} (env : Fixture) :
  SC2TestEnv.reset (Act := Act) env =
    ((TestEnvironment.reset (Act := Act) (SC2TestEnv.base env)).1,
     SC2TestEnv.mk (SC2TestEnv._features env)
       (TestEnvironment.reset (Act := Act) (SC2TestEnv.base env)).2).
Proof.
  unfold SC2TestEnv.reset, SC2TestEnv.inherited.
  by destruct (TestEnvironment.reset (SC2TestEnv.base env)).
Qed.

(** C2, as amended: for an integer episode length L >= 1, a number of
    agents that is not negative and a template whose step type is MID, as
    constructed, [reset], which makes the first call of [step] of the
    episode itself, yields FIRST; the next L - 1 calls of [step] with one
    [None] per agent yield MID, the call after them, call L + 1 of the
    episode, yields LAST, and the call after that yields FIRST again, the
    counter being 1 as after [reset].  A constructed SC2TestEnv has L = 10,
    a MID template and at least one agent. *)
Theorem episode_step_types :
  (∀ (Obs ObsSpec ASpec Act : Type) (L : Z)
     (self : TestEnvironment.t Obs ObsSpec ASpec),
     1 ≤ L →
     0 ≤ TestEnvironment._num_agents self →
     TestEnvironment.episode_length self = Steps L →
     step_type (TestEnvironment.next_timestep self) = MID →
     let N := TestEnvironment._num_agents self in
     let template := TestEnvironment.next_timestep self in
     let first := replace_step_type_reward_discount template FIRST 0%float 1%float in
     let last := replace_step_type template LAST in
     TestEnvironment.reset (Act := Act) self =
       (Ok (py_repeat first N), TestEnvironment.set_episode_steps self 1) ∧
     step_n (Act := Act) (Z.to_nat (L - 1) + 2)
         (TestEnvironment.set_episode_steps self 1) =
       (replicate (Z.to_nat (L - 1)) (Ok (py_repeat template N))
          ++ [Ok (py_repeat last N); Ok (py_repeat first N)],
        TestEnvironment.set_episode_steps self 1) ∧
     step_type first = FIRST ∧ step_type template = MID ∧ step_type last = LAST) ∧
  (∀ (Act : Type) (args : list PyVal) (kwargs : list (string * PyVal))
     (env : Fixture),
     init args kwargs = Ok env →
     let self := SC2TestEnv.base env in
     let N := TestEnvironment._num_agents self in
     let template := TestEnvironment.next_timestep self in
     let first := replace_step_type_reward_discount template FIRST 0%float 1%float in
     let last := replace_step_type template LAST in
     TestEnvironment.episode_length self = Steps 10 ∧
     1 ≤ N ∧
     step_type template = MID ∧
     SC2TestEnv.reset (Act := Act) env =
       (Ok (py_repeat first N),
        SC2TestEnv.mk (SC2TestEnv._features env)
          (TestEnvironment.set_episode_steps self 1)) ∧
     step_n (Act := Act) 11 (TestEnvironment.set_episode_steps self 1) =
       (replicate 9 (Ok (py_repeat template N))
          ++ [Ok (py_repeat last N); Ok (py_repeat first N)],
        TestEnvironment.set_episode_steps self 1)).
Proof.
  assert (Hgen : ∀ (Obs ObsSpec ASpec Act : Type) (L : Z)
     (self : TestEnvironment.t Obs ObsSpec ASpec),
     1 ≤ L →
     0 ≤ TestEnvironment._num_agents self →
     TestEnvironment.episode_length self = Steps L →
     step_type (TestEnvironment.next_timestep self) = MID →
     TestEnvironment.reset (Act := Act) self =
       (Ok (py_repeat
              (replace_step_type_reward_discount
                 (TestEnvironment.next_timestep self) FIRST 0%float 1%float)
              (TestEnvironment._num_agents self)),
        TestEnvironment.set_episode_steps self 1) ∧
     step_n (Act := Act) (Z.to_nat (L - 1) + 2)
         (TestEnvironment.set_episode_steps self 1) =
       (replicate (Z.to_nat (L - 1))
          (Ok (py_repeat (TestEnvironment.next_timestep self)
                 (TestEnvironment._num_agents self)))
          ++ [Ok (py_repeat
                    (replace_step_type (TestEnvironment.next_timestep self) LAST)
                    (TestEnvironment._num_agents self));
              Ok (py_repeat
                    (replace_step_type_reward_discount
                       (TestEnvironment.next_timestep self) FIRST 0%float 1%float)
                    (TestEnvironment._num_agents self))],
        TestEnvironment.set_episode_steps self 1)).
  { intros Obs ObsSpec ASpec Act L self HL HN Hlen HM. split.
    - rewrite reset_unfold. by apply first_step.
    - rewrite step_n_app, (mid_steps L self HN Hlen HM) by lia.
      replace (1 + Z.of_nat (Z.to_nat (L - 1))) with L by lia.
      cbn [step_n].
      change (TestEnvironment._num_agents (TestEnvironment.set_episode_steps self L))
        with (TestEnvironment._num_agents self).
      rewrite (last_step L self HL HN Hlen).
      change (TestEnvironment._num_agents (TestEnvironment.set_episode_steps self 0))
        with (TestEnvironment._num_agents self).
      by rewrite first_step. }
  split.
  - intros Obs ObsSpec ASpec Act L self HL HN Hlen HM N template first last.
    destruct (Hgen Obs ObsSpec ASpec Act L self HL HN Hlen HM) as [Hr Hs].
    done.
  - intros Act args kwargs env Hinit self N template first last.
    apply init_attributes in Hinit
      as (a & n & _ & _ & Hn1 & Hn & _ & Hlen & HM & _).
    assert (HN : 0 ≤ TestEnvironment._num_agents self) by (unfold self; lia).
    destruct (Hgen _ _ _ Act 10 self ltac:(lia) HN Hlen HM) as [Hr Hs].
    repeat split; try done.
    + unfold N, self. lia.
    + rewrite fixture_reset_unfold. fold self. by rewrite Hr.
Qed.

(** What the guard of line 225 does, where the docstring promises a
    ValueError whenever arguments are passed by position: it looks at the
    value bound to [_only_use_kwargs], which is the first positional
    argument when there is one.  When that value is truthy the constructor
    raises the ValueError of the guard; when it is falsy (None, 0, False, an
    empty string or list) the guard lets it through and the constructor goes
    on.  With keywords only, and [_only_use_kwargs] not among them, the
    guard always passes; past the guard the construction succeeds exactly
    when [features.Features], the count of the agents and the default
    observation all succeed. *)
Theorem keyword_only_guard :
  (∀ (v : PyVal) (rest : list PyVal) (kwargs : list (string * PyVal))
     (a : gmap string PyVal),
     bind_arguments SC2TestEnv.signature (v :: rest) kwargs = Ok a →
     a !! "_only_use_kwargs" = Some v ∧
     (truthy v = true →
      init (v :: rest) kwargs = Raise (ValueError SC2TestEnv.only_use_kwargs_message)) ∧
     (truthy v = false →
      init (v :: rest) kwargs = construct (λ name, default PyNone (a !! name)))) ∧
  (∀ (kwargs : list (string * PyVal)) (a : gmap string PyVal),
     bind_arguments SC2TestEnv.signature [] kwargs = Ok a →
     "_only_use_kwargs" ∉ kwargs.*1 →
     init [] kwargs = construct (λ name, default PyNone (a !! name))) ∧
  (∀ (arg : string → PyVal) (env : Fixture),
     construct arg = Ok env ↔
     ∃ features num_agents observation,
       new_Features (SC2TestEnv.features_kwargs arg) = Ok features ∧
       SC2TestEnv.count_agents (arg "players") = Ok num_agents ∧
       default_observation features
         (py_repeat (SC2TestEnv.features_observation_spec features) num_agents)
         = Ok observation ∧
       env = SC2TestEnv.built features num_agents observation).
Proof.
  split; [| split].
  - intros v rest kwargs a Ha.
    pose proof (bind_first_positional _ _ _ _ _ _ _ Ha) as Hv.
    split; [done |].
    rewrite (init_guard _ _ _ Ha), Hv.
    change (default PyNone (Some v)) with v.
    split; intros ->; done.
  - intros kwargs a Ha Hnot.
    pose proof (bind_no_positional _ _ _ _ _ Ha Hnot) as Hv.
    by rewrite (init_guard _ _ _ Ha), Hv.
  - apply construct_ok.
Qed.

(** C9, as amended: without a roster, or with an empty one, the fixture has
    one agent; with a roster that is not empty it has as many agents as the
    roster has instances of [Agent].  Whenever the construction succeeds
    that number is at least 1 and it is the number of timesteps [step] and
    [reset] return, the number of actions [step] requires and the number of
    specs. *)
Theorem agent_count_from_roster :
  SC2TestEnv.count_agents PyNone = Ok 1 ∧
  SC2TestEnv.count_agents (PyList []) = Ok 1 ∧
  (∀ (p : PyVal) (ps : list PyVal),
     SC2TestEnv.count_agents (PyList (p :: ps)) =
       Ok (Z.of_nat (length (filter (λ q, isinstance q "Agent" = true) (p :: ps))))) ∧
  (∀ (Act : Type) (args : list PyVal) (kwargs : list (string * PyVal))
     (env : Fixture),
     init args kwargs = Ok env →
     ∃ a n,
       bind_arguments SC2TestEnv.signature args kwargs = Ok a ∧
       SC2TestEnv.count_agents (default PyNone (a !! "players")) = Ok n ∧
       1 ≤ n ∧
       TestEnvironment._num_agents (SC2TestEnv.base env) = n ∧
       py_len (TestEnvironment.observation_spec (SC2TestEnv.base env)) = n ∧
       py_len (TestEnvironment.action_spec (SC2TestEnv.base env)) = n ∧
       (∀ (actions : list (option Act)),
          is_ok (SC2TestEnv.step actions env).1 = true ↔ py_len actions = n) ∧
       (∀ (actions : list (option Act)) tss env',
          SC2TestEnv.step actions env = (Ok tss, env') →
          py_len tss = n ∧ ∃ ts, tss = py_repeat ts n) ∧
       (∃ ts env',
          SC2TestEnv.reset (Act := Act) env = (Ok (py_repeat ts n), env') ∧
          py_len (py_repeat ts n) = n)).
Proof.
  split; [reflexivity |]. split; [reflexivity |]. split.
  - intros p ps. unfold SC2TestEnv.count_agents. cbn [truthy negb py_iter].
    cbn [mbind Result_bind mret Result_ret]. by rewrite sum_of_ones.
  - intros Act args kwargs env Hinit.
    apply init_attributes in Hinit
      as (a & n & Ha & Hc & Hn1 & Hn & _ & _ & _ & Hos & Has).
    exists a, n. split; [done |]. split; [done |]. split; [done |].
    split; [done |].
    split; [rewrite Hos; apply py_len_repeat; lia |].
    split; [rewrite Has; apply py_len_repeat; lia |].
    split; [| split].
    + intros actions. rewrite fixture_step_unfold. cbn [fst]. rewrite <- Hn.
      destruct (decide (py_len actions = TestEnvironment._num_agents (SC2TestEnv.base env)))
        as [Hlen | Hlen].
      * by rewrite (step_returns _ _ Hlen).
      * by rewrite (step_raises _ _ Hlen).
    + intros actions tss env'. rewrite fixture_step_unfold. intros [= H1 H2].
      destruct (TestEnvironment.step actions (SC2TestEnv.base env)) as [r b] eqn:Hs.
      cbn in H1. subst r.
      apply step_ok_inv in Hs as (_ & -> & _). rewrite Hn.
      split; [apply py_len_repeat; lia | by eexists].
    + rewrite fixture_reset_unfold, reset_unfold.
      rewrite step_none_at by lia. rewrite Hn. cbn [fst snd].
      eexists _, _. split; [reflexivity |]. apply py_len_repeat. lia.
Qed.

End FixtureProperties.

(** ** The images of the raw observation *)

Section ImageProperties.

Lemma ceil_div8_bounds (n : Z) : 8 * ceil_div8 n - 8 < n ≤ 8 * ceil_div8 n.
Proof. unfold ceil_div8. pose proof (Z.div_mod (- n) 8). pose proof (Z.mod_pos_bound (- n) 8). lia. Qed.

Lemma ceil_div8_bytes (n : Z) : ceil_div8 (n * 8) = n.
Proof. pose proof (ceil_div8_bounds (n * 8)). lia. Qed.

Lemma ceil_div8_rgb (h w : Z) : ceil_div8 (h * w * 24) = h * w * 3.
Proof. pose proof (ceil_div8_bounds (h * w * 24)). lia. Qed.



(** What [fill] has written when it returns. *)
Lemma fill_ok_inv (size : list Z) (bits : Z) (image : ImageData) :
  SC2TestEnv.fill size bits = Ok image →
  ∃ h w rest,
    size = h :: w :: rest ∧
    is_int32 bits = true ∧ is_int32 h = true ∧ is_int32 w = true ∧
    image = mk_ImageData bits w h (zero_bytes (ceil_div8 (h * w * bits))).
Proof.
  unfold SC2TestEnv.fill, int32_field, tuple_item, mbind, Result_bind, mret, Result_ret.
  destruct (is_int32 bits) eqn:Hb; [| discriminate].
  destruct size as [| h [| w rest]]; cbn [lookup list_lookup]; try discriminate.
  - by destruct (is_int32 h).
  - destruct (is_int32 h) eqn:Hh; [| discriminate].
    destruct (is_int32 w) eqn:Hw; [| discriminate].
    intros [= <-]. by exists h, w, rest.
Qed.

(** What [fill] writes for a size of two dimensions. *)
Lemma fill_two_dims (h w bits : Z) (rest : list Z) (image : ImageData) :
  SC2TestEnv.fill (take 2 (h :: w :: rest)) bits = Ok image →
  image = mk_ImageData bits w h (zero_bytes (ceil_div8 (h * w * bits))).
Proof. by intros (h0 & w0 & rest0 & [= <- <- _] & _ & _ & _ & ->)%fill_ok_inv. Qed.

(** X13: with both visual fields declared, and the feature layers filled, both
    images are written, 24 bits per pixel, [h * w * 3] zero bytes each. *)
Lemma visual_images_filled (SCREEN_FEATURES MINIMAP_FEATURES : list string)
    (obs_spec : ObsSpec) (raw : RawObservation) (h w h' w' : Z) (r r' : list Z) :
  obs_spec !! "rgb_screen" = Some (h :: w :: r) →
  obs_spec !! "rgb_minimap" = Some (h' :: w' :: r') →
  SC2TestEnv.fill_images SCREEN_FEATURES MINIMAP_FEATURES obs_spec
    SC2TestEnv.scalar_observation = Ok raw →
  render_map raw = Some (mk_ImageData 24 w h (zero_bytes (h * w * 3))) ∧
  render_minimap raw = Some (mk_ImageData 24 w' h' (zero_bytes (h' * w' * 3))).
Proof.
  intros Hs Hm. unfold SC2TestEnv.fill_images, dict_contains, dict_item.
  rewrite Hs, Hm. rewrite (bool_decide_eq_true_2 (is_Some (Some _))) by by eexists.
  unfold mbind, Result_bind, mret, Result_ret. cbn beta iota.
  destruct (SC2TestEnv.fill (take 2 (h :: w :: r)) 24) as [image |] eqn:Hi;
    [apply fill_two_dims in Hi as -> |];
    (destruct (SC2TestEnv.fill (take 2 (h' :: w' :: r')) 24) as [image' |] eqn:Hi';
       [apply fill_two_dims in Hi' as -> |]);
    rewrite ?ceil_div8_rgb;
    repeat case_match; simplify_eq; try discriminate; intros [= <-]; done.
Qed.

(** Without the visual screen field no minimap image is written, whether
    the visual minimap field is declared or not. *)
Lemma minimap_image_needs_screen (SCREEN_FEATURES MINIMAP_FEATURES : list string)
    (obs_spec : ObsSpec) (raw : RawObservation) :
  obs_spec !! "rgb_screen" = None →
  SC2TestEnv.fill_images SCREEN_FEATURES MINIMAP_FEATURES obs_spec
    SC2TestEnv.scalar_observation = Ok raw →
  render_minimap raw = None.
Proof.
  intros Hs. unfold SC2TestEnv.fill_images, dict_contains, dict_item.
  rewrite Hs. rewrite (bool_decide_eq_false_2 (is_Some None)) by by intros [? ?].
  unfold mbind, Result_bind, mret, Result_ret.
  repeat case_match; simplify_eq; try discriminate; intros [= <-]; done.
Qed.

(** C7, at the input where it fails: with the visual minimap field declared,
    64 by 64, and no visual screen field, [fill_images] returns the raw
    observation as it was, without any minimap image; with the visual screen
    field declared and no visual minimap field it raises a KeyError. *)
Theorem visual_minimap_guard_tests_screen :
  (∀ SCREEN_FEATURES MINIMAP_FEATURES,
     SC2TestEnv.fill_images SCREEN_FEATURES MINIMAP_FEATURES
       {[ "rgb_minimap" := [64; 64; 3] ]} SC2TestEnv.scalar_observation
     = Ok SC2TestEnv.scalar_observation) ∧
  render_minimap SC2TestEnv.scalar_observation = None ∧
  (∀ SCREEN_FEATURES MINIMAP_FEATURES,
     SC2TestEnv.fill_images SCREEN_FEATURES MINIMAP_FEATURES
       {[ "rgb_screen" := [64; 64; 3] ]} SC2TestEnv.scalar_observation
     = Raise (KeyError "rgb_minimap")).
Proof.
  split; [| split].
  - intros S M. vm_compute. reflexivity.
  - reflexivity.
  - intros S M. vm_compute. reflexivity.
Qed.

End ImageProperties.

(** ** The properties on the sample environments *)

(** The message for two agents and one action. *)
Example arity_message_example :
  (TestEnvironment.step (Act := unit) [None] (Samples.engine 2)).1 =
    Raise (ValueError "Expected 2 actions, received 1.").
Proof. reflexivity. Qed.

(** A camera layer of 32 by 32: the top left 16 by 16 block is 1, the rest
    is 0. *)
Example camera_box_32 :
  SC2TestEnv.camera_box (mk_ndarray2 (32, 32)%nat (replicate 32 (replicate 32 7))) =
    mk_ndarray2 (32, 32)%nat
      (replicate 16 (replicate 16 1 ++ replicate 16 0)
         ++ replicate 16 (replicate 32 0)).
Proof. vm_compute. reflexivity. Qed.

(** A visual field of 64 by 64 gets 64 * 64 * 24 / 8 = 12288 zero bytes. *)
Example rgb_image_64 :
  SC2TestEnv.fill (take 2 [64; 64; 3]) 24 =
    Ok (mk_ImageData 24 64 64 (zero_bytes 12288)) ∧
  py_len (zero_bytes 12288) = 12288.
Proof. split; vm_compute; reflexivity. Qed.

(** C1, the claim as stated fails: with a template whose step type is LAST
    and the counter at 1, below the episode length 10, [step] returns LAST. *)
Lemma last_template_passes_through :
  ¬ (∀ tss self',
       TestEnvironment.step (Act := unit) [None] Samples.engine_last_template
         = (Ok tss, self') →
       ∀ ts, ts ∈ tss →
         TestEnvironment._episode_steps Samples.engine_last_template ≠ 0 →
         (step_type ts = LAST ↔
          ge_length (TestEnvironment._episode_steps Samples.engine_last_template)
            (TestEnvironment.episode_length Samples.engine_last_template) = true)).
Proof.
  intros H.
  specialize (H _ _ eq_refl (mkTimeStep LAST 0%float 1%float tt)
                ltac:(repeat constructor) ltac:(discriminate)).
  destruct H as [H _]. specialize (H eq_refl). discriminate H.
Qed.

(** C1 on [engine_started]: counter 1, episode length 10, template MID. *)
Lemma step_type_contract_witness :
  let self := Samples.engine_started in
  let ts := TestEnvironment.next_timestep self in
  let template := TestEnvironment.next_timestep self in
  let steps := TestEnvironment._episode_steps self in
  let len := TestEnvironment.episode_length self in
  observation ts = observation template ∧
  (steps = 0 →
     step_type ts = FIRST ∧ reward ts = 0%float ∧ discount ts = 1%float) ∧
  (steps ≠ 0 →
     reward ts = reward template ∧ discount ts = discount template ∧
     (ge_length steps len = true → step_type ts = LAST) ∧
     (ge_length steps len = false → ts = template) ∧
     (step_type template = MID →
        (step_type ts = LAST ↔ ge_length steps len = true) ∧
        (step_type ts = MID ↔ ge_length steps len = false))).
Proof.
  cbv zeta.
  apply (step_type_contract (Act := unit) Samples.engine_started [None; None]
           _ _ eq_refl).
  repeat constructor.
Defined.

(** C2, the claim as stated fails: on [engine 1], episode length 10, the
    twelve calls of [step] after [reset] has returned yield MID nine times,
    then LAST, FIRST and MID, not FIRST, MID nine times, LAST and FIRST. *)
Lemma steps_after_reset :
  step_types
    (step_n (Act := unit) 12
       (TestEnvironment.reset (Act := unit) (Samples.engine 1)).2).1
    = replicate 9 [MID] ++ [[LAST]; [FIRST]; [MID]] ∧
  step_types
    (step_n (Act := unit) 12
       (TestEnvironment.reset (Act := unit) (Samples.engine 1)).2).1
    ≠ [[FIRST]] ++ replicate 9 [MID] ++ [[LAST]; [FIRST]].
Proof. split; [reflexivity | discriminate]. Qed.

(** C2 on [engine 1] with L = 10. *)
Lemma episode_step_types_witness :
  let self := Samples.engine 1 in
  let N := TestEnvironment._num_agents self in
  let template := TestEnvironment.next_timestep self in
  let first := replace_step_type_reward_discount template FIRST 0%float 1%float in
  let last := replace_step_type template LAST in
  TestEnvironment.reset (Act := unit) self =
    (Ok (py_repeat first N), TestEnvironment.set_episode_steps self 1) ∧
  step_n (Act := unit) (Z.to_nat (10 - 1) + 2)
      (TestEnvironment.set_episode_steps self 1) =
    (replicate (Z.to_nat (10 - 1)) (Ok (py_repeat template N))
       ++ [Ok (py_repeat last N); Ok (py_repeat first N)],
     TestEnvironment.set_episode_steps self 1) ∧
  step_type first = FIRST ∧ step_type template = MID ∧ step_type last = LAST.
Proof.
  cbv zeta.
  apply (proj1 (episode_step_types Samples.SCREEN_FEATURES Samples.MINIMAP_FEATURES
                  Samples.new_Features)
           unit unit unit unit 10 (Samples.engine 1)).
  - lia.
  - cbn. lia.
  - reflexivity.
  - reflexivity.
Defined.

(** C3 on [engine 2]. *)
Lemma timesteps_one_per_agent_witness :
  let self := Samples.engine 2 in
  (∀ (actions : list (option unit)) tss self',
     TestEnvironment.step actions self = (Ok tss, self') →
     py_len tss = TestEnvironment._num_agents self ∧
     (∃ ts, tss = py_repeat ts (TestEnvironment._num_agents self)) ∧
     (∀ t1 t2, t1 ∈ tss → t2 ∈ tss →
        t1 = t2 ∧ step_type t1 = step_type t2 ∧ reward t1 = reward t2 ∧
        discount t1 = discount t2 ∧ observation t1 = observation t2)) ∧
  (∀ tss self',
     TestEnvironment.reset (Act := unit) self = (Ok tss, self') →
     py_len tss = TestEnvironment._num_agents self ∧
     (∃ ts, tss = py_repeat ts (TestEnvironment._num_agents self)) ∧
     (∀ t1 t2, t1 ∈ tss → t2 ∈ tss →
        t1 = t2 ∧ step_type t1 = step_type t2 ∧ reward t1 = reward t2 ∧
        discount t1 = discount t2 ∧ observation t1 = observation t2)).
Proof.
  cbv zeta. apply (timesteps_one_per_agent (Act := unit) (Samples.engine 2)).
  cbn. lia.
Defined.

(** C4 on [engine 1] after the call that ends its first episode. *)
Lemma reset_is_first_step_witness :
  let self := (step_n (Act := unit) 10 (Samples.engine 1)).2 in
  let self' := (TestEnvironment.step (Act := unit) [None] self).2 in
  TestEnvironment.reset (Act := unit) self' =
    TestEnvironment.step (Act := unit)
      (py_repeat None (TestEnvironment._num_agents self')) self'.
Proof.
  cbv zeta.
  apply (proj2 (proj2 (proj2 (reset_is_first_step (Act := unit))))
           (step_n (Act := unit) 10 (Samples.engine 1)).2 [None]
           [mkTimeStep LAST 0%float 1%float tt]).
  - reflexivity.
  - exists (mkTimeStep LAST 0%float 1%float tt). split; [repeat constructor | reflexivity].
Defined.

(** C5 on [engine 2] with one action. *)
Lemma step_arity_error_witness :
  let self := Samples.engine 2 in
  let actions : list (option unit) := [None] in
  let msg := TestEnvironment.arity_message 2 1 in
  TestEnvironment.step actions self = (Raise (ValueError msg), self) ∧
  msg = "Expected 2 actions, received 1." ∧
  (∀ actions' : list (option unit),
     TestEnvironment.step actions' (TestEnvironment.step actions self).2 =
     TestEnvironment.step actions' self).
Proof.
  cbv zeta.
  assert (Hlen : py_len [@None unit] ≠ TestEnvironment._num_agents (Samples.engine 2))
    by (vm_compute; discriminate).
  destruct (proj2 (step_arity_error (Act := unit) (Samples.engine 2) [None]) Hlen)
    as (Hstep & Hmsg & _ & _ & Hnext & _).
  exact (conj Hstep (conj eq_refl Hnext)).
Defined.

(** C10 on [engine 2] and the calls of [Samples.calls]. *)
Lemma episode_steps_bounded_witness :
  let self0 := Samples.engine 2 in
  TestEnvironment._episode_steps self0 = 0 ∧
  0 ≤ TestEnvironment._episode_steps (run Samples.calls self0) ≤ 10.
Proof.
  cbv zeta.
  assert (HL : 1 ≤ 10) by lia.
  destruct (episode_steps_bounded (Act := unit) 10 2 tt tt tt Samples.calls HL)
    as (H0 & Hb & _).
  exact (conj H0 Hb).
Defined.

(** C6 on the sample features: a camera layer of 4 by 6. *)
Lemma minimap_camera_quadrant_witness :
  ∃ observation layers' camera',
    SC2TestEnv._default_observation Samples.SCREEN_FEATURES Samples.MINIMAP_FEATURES
      Samples.features
      (py_repeat (SC2TestEnv.features_observation_spec Samples.features) 1)
      = Ok observation ∧
    observation !! "feature_minimap" = Some (Layers layers') ∧
    layers' !! "camera" = Some camera' ∧
    camera' = SC2TestEnv.camera_box Samples.camera ∧
    shape camera' = (4, 6)%nat ∧
    well_shaped camera' ∧
    ∀ i j, (i < 4)%nat → (j < 6)%nat →
      item camera' i j =
        Some (if (i <? 4 / 2)%nat && (j <? 6 / 2)%nat then 1 else 0).
Proof.
  apply (minimap_camera_quadrant Samples.SCREEN_FEATURES Samples.MINIMAP_FEATURES
           Samples.features
           (py_repeat (SC2TestEnv.features_observation_spec Samples.features) 1)
           (SC2TestEnv.features_observation_spec Samples.features)
           Samples.raw_observation
           (Samples.unpack_layer <$> minimap_renders Samples.raw_observation)
           Samples.camera 4 6).
  - reflexivity.
  - vm_compute. reflexivity.
  - vm_compute. reflexivity.
  - vm_compute. reflexivity.
  - reflexivity.
  - split; [reflexivity | repeat constructor].
Defined.

(** C8, at the inputs where the code fails it: with the sample features, a
    construction with the positional argument None, or with the positional
    arguments 0 and a map name, raises nothing, and a construction with
    keywords only raises the error of the guard when [_only_use_kwargs] is
    the keyword. *)
Lemma falsy_positional_accepted :
  is_ok (Samples.construct [PyNone] []) = true ∧
  is_ok (Samples.construct [PyInt 0; PyStr "Simple64"] []) = true ∧
  Samples.construct [] [("_only_use_kwargs", PyBool true)] =
    Raise (ValueError SC2TestEnv.only_use_kwargs_message).
Proof. repeat split; vm_compute; reflexivity. Qed.

(** The guard on the sample features: one positional argument, the int 1,
    raises as the docstring says. *)
Lemma keyword_only_guard_witness :
  Samples.construct [PyInt 1] [] =
    Raise (ValueError SC2TestEnv.only_use_kwargs_message).
Proof.
  assert (Hok : is_ok (bind_arguments SC2TestEnv.signature [PyInt 1] []) = true)
    by (vm_compute; reflexivity).
  destruct (bind_arguments SC2TestEnv.signature [PyInt 1] []) as [a | e] eqn:Ha;
    [| discriminate Hok].
  destruct (proj1 (keyword_only_guard Samples.SCREEN_FEATURES Samples.MINIMAP_FEATURES
                     Samples.new_Features) (PyInt 1) [] [] a Ha)
    as (_ & Hraise & _).
  exact (Hraise eq_refl).
Defined.

(** C9, the claim as stated fails: an empty roster has no agent and the
    fixture counts one. *)
Lemma empty_roster_counts_one :
  SC2TestEnv.count_agents (PyList []) = Ok 1 ∧
  SC2TestEnv.count_agents (PyList []) ≠
    Ok (Z.of_nat (length (filter (λ q, isinstance q "Agent" = true) []))).
Proof. split; [reflexivity | discriminate]. Qed.

(** C9 on the sample features: a roster of one bot and two agents. *)
Lemma agent_count_from_roster_witness :
  SC2TestEnv.count_agents Samples.roster = Ok 2 ∧
  TestEnvironment._num_agents (SC2TestEnv.base Samples.fixture_of_roster) = 2 ∧
  (∀ actions : list (option unit),
     is_ok (SC2TestEnv.step actions Samples.fixture_of_roster).1 = true ↔
     py_len actions = 2).
Proof.
  assert (Hinit : Samples.construct [] [("players", Samples.roster)]
                  = Ok Samples.fixture_of_roster) by (vm_compute; reflexivity).
  destruct (proj2 (proj2 (proj2
              (agent_count_from_roster Samples.SCREEN_FEATURES Samples.MINIMAP_FEATURES
                 Samples.new_Features)))
              unit _ _ _ Hinit)
    as (a & n & Ha & Hc & _ & Hn & _ & _ & Hstep & _).
  assert (Hb : TestEnvironment._num_agents (SC2TestEnv.base Samples.fixture_of_roster) = 2)
    by (vm_compute; reflexivity).
  split; [reflexivity |]. split; [exact Hb |].
  intros actions. rewrite (Hstep actions), <- Hn, Hb. reflexivity.
Defined.

(** ** More on the step/reset protocol *)

Section EngineExtras.

Context {Obs ObsSpec ActSpec Act : Type}.

#[local] Abbreviation Env := (TestEnvironment.t Obs ObsSpec ActSpec).
#[local] Abbreviation step := (TestEnvironment.step (Obs := Obs) (ObsSpec := ObsSpec)
                                 (ActSpec := ActSpec) (Act := Act)).
#[local] Abbreviation reset := (TestEnvironment.reset (Obs := Obs) (ObsSpec := ObsSpec)
                                  (ActSpec := ActSpec) (Act := Act)).

Implicit Types (self : Env) (actions : list (option Act)).

(** X1: the actions are only counted: two lists of actions of the same length
    give the same timesteps and leave the same attributes. *)
Theorem step_ignores_actions self actions actions' :
  length actions = length actions' →
  step actions self = step actions' self.
Proof.
  intros Hlen. unfold TestEnvironment.step, py_len. by rewrite Hlen.
Qed.

(** A call of [step] writes the counter and nothing else. *)
Lemma step_writes_counter self actions :
  ∃ c, (step actions self).2 = TestEnvironment.set_episode_steps self c.
Proof.
  destruct (decide (py_len actions = TestEnvironment._num_agents self)) as [H | H].
  - rewrite (step_returns _ _ H). by eexists.
  - rewrite (step_raises _ _ H). exists (TestEnvironment._episode_steps self).
    by rewrite set_episode_steps_same.
Qed.

Lemma call_writes (x : Call (Obs := Obs) (Act := Act)) self :
  ∃ c ts,
    call self x =
      TestEnvironment.set_episode_steps (TestEnvironment.set_next_timestep self ts) c ∧
    (is_method_call x → ts = TestEnvironment.next_timestep self).
Proof.
  destruct x as [| actions | ts']; cbn [call].
  - rewrite reset_unfold.
    destruct (step_writes_counter (TestEnvironment.set_episode_steps self 0)
                (py_repeat None (TestEnvironment._num_agents self))) as [c' ->].
    exists c', (TestEnvironment.next_timestep self). by destruct self.
  - destruct (step_writes_counter self actions) as [c' ->].
    exists c', (TestEnvironment.next_timestep self). by destruct self.
  - exists (TestEnvironment._episode_steps self), ts'. split; [done |]. intros [].
Qed.

Lemma run_writes (calls : list (Call (Obs := Obs) (Act := Act))) self :
  ∃ c ts,
    run calls self =
      TestEnvironment.set_episode_steps (TestEnvironment.set_next_timestep self ts) c ∧
    (Forall is_method_call calls → ts = TestEnvironment.next_timestep self).
Proof.
  revert self. induction calls as [| x calls IH]; intros self.
  - exists (TestEnvironment._episode_steps self), (TestEnvironment.next_timestep self).
    split; [by destruct self | done].
  - unfold run. cbn [foldl]. fold (run calls (call self x)).
    destruct (IH (call self x)) as (c & ts & -> & Hts).
    destruct (call_writes x self) as (c' & ts' & Hx & Hts').
    rewrite Hx in *. exists c, ts. split; [done |].
    intros [Hm HF]%Forall_cons. rewrite (Hts HF). cbn. by apply Hts'.
Qed.

(** X2: calls of [reset] and [step], failed ones included, and assignments to
    [next_timestep] never change the number of agents, the specs or the
    episode length, so [observation_spec()] and [action_spec()] keep
    returning one copy of the spec per agent; calls of [reset] and [step]
    alone never change the template either. *)
Theorem calls_keep_configuration (calls : list (Call (Obs := Obs) (Act := Act))) self :
  TestEnvironment._num_agents (run calls self) = TestEnvironment._num_agents self ∧
  TestEnvironment.observation_spec (run calls self) = TestEnvironment.observation_spec self ∧
  TestEnvironment.action_spec (run calls self) = TestEnvironment.action_spec self ∧
  TestEnvironment.episode_length (run calls self) = TestEnvironment.episode_length self ∧
  (Forall is_method_call calls →
   TestEnvironment.next_timestep (run calls self) = TestEnvironment.next_timestep self) ∧
  (∀ num_agents observation_spec action_spec default_observation,
     self = TestEnvironment.__init__ num_agents observation_spec action_spec
              default_observation →
     TestEnvironment.observation_spec (run calls self) =
       py_repeat observation_spec num_agents ∧
     TestEnvironment.action_spec (run calls self) =
       py_repeat action_spec num_agents).
Proof.
  destruct (run_writes calls self) as (c & ts & -> & Hts).
  do 4 (split; [done |]). split.
  - intros HF. by rewrite (Hts HF).
  - by intros n os asp o ->.
Qed.

(** X3: whatever the counter, [reset] returns one FIRST timestep per agent, with
    reward 0, discount 1 and the observation of the template, and leaves the
    counter at 1; a second [reset] gives the same again. *)
Theorem reset_restarts_episode self :
  0 ≤ TestEnvironment._num_agents self →
  let first :=
    mkTimeStep FIRST 0%float 1%float
      (observation (TestEnvironment.next_timestep self)) in
  reset self =
    (Ok (py_repeat first (TestEnvironment._num_agents self)),
     TestEnvironment.set_episode_steps self 1) ∧
  (∀ c, reset (TestEnvironment.set_episode_steps self c) = reset self) ∧
  reset (reset self).2 = reset self.
Proof.
  intros HN first.
  assert (Hr : reset self =
    (Ok (py_repeat first (TestEnvironment._num_agents self)),
     TestEnvironment.set_episode_steps self 1)).
  { rewrite reset_unfold. by rewrite (first_step (Act := Act) self HN). }
  split; [exact Hr |]. split; [done |]. by rewrite Hr.
Qed.

(** X4: after a call of [step] that returned a LAST timestep, the next call
    that returns gives FIRST timesteps with reward 0 and discount 1. *)
Theorem last_then_first self actions tss self' :
  step actions self = (Ok tss, self') →
  (∃ ts, ts ∈ tss ∧ step_type ts = LAST) →
  ∀ actions' tss' self'',
    step actions' self' = (Ok tss', self'') →
    ∀ ts', ts' ∈ tss' →
      step_type ts' = FIRST ∧ reward ts' = 0%float ∧ discount ts' = 1%float ∧
      observation ts' = observation (TestEnvironment.next_timestep self).
Proof.
  intros H (ts & Hts & HL) actions' tss' self'' H' ts' Hts'.
  apply step_ok_inv in H as (_ & -> & ->).
  apply elem_of_py_repeat in Hts as ->.
  apply step_ok_inv in H' as (_ & -> & _).
  apply elem_of_py_repeat in Hts' as ->.
  unfold next_episode_steps. rewrite HL. done.
Qed.

Section Unbounded.

Variable self : Env.
Hypothesis agents_nonneg : 0 ≤ TestEnvironment._num_agents self.
Hypothesis length_is_inf : TestEnvironment.episode_length self = Inf.
Hypothesis template_not_LAST : step_type (TestEnvironment.next_timestep self) ≠ LAST.

#[local] Abbreviation N := (TestEnvironment._num_agents self).
#[local] Abbreviation template := (TestEnvironment.next_timestep self).
#[local] Abbreviation first :=
  (replace_step_type_reward_discount template FIRST 0%float 1%float).
#[local] Abbreviation at_steps := (TestEnvironment.set_episode_steps self).

Lemma unbounded_step (c : Z) :
  1 ≤ c →
  step (py_repeat None N) (at_steps c) = (Ok (py_repeat template N), at_steps (c + 1)).
Proof.
  intros Hc. rewrite step_none_at by done.
  unfold next_episode_steps, TestEnvironment.pick_timestep. cbn.
  rewrite length_is_inf. cbn.
  destruct (Z.eqb_spec c 0); [lia |].
  by destruct (step_type template).
Qed.

Lemma unbounded_steps (k : nat) (c : Z) :
  1 ≤ c →
  step_n (Act := Act) k (at_steps c) =
    (replicate k (Ok (py_repeat template N)), at_steps (c + Z.of_nat k)).
Proof.
  revert c. induction k as [| k IH]; intros c Hc.
  - cbn. by rewrite Z.add_0_r.
  - cbn [step_n replicate].
    change (TestEnvironment._num_agents (at_steps c)) with N.
    rewrite unbounded_step by lia. rewrite IH by lia.
    do 2 f_equal. lia.
Qed.

End Unbounded.

(** X5: with the default episode length, [float('inf')], and a template that is
    not LAST, no episode ever ends: from a counter at 0 the first call of
    [step] yields FIRST and each of the [k] calls after it yields the
    template, the counter counting the calls.  An engine is in that state
    when constructed. *)
Theorem unbounded_episode_never_ends self (k : nat) :
  0 ≤ TestEnvironment._num_agents self →
  TestEnvironment.episode_length self = Inf →
  step_type (TestEnvironment.next_timestep self) ≠ LAST →
  let N := TestEnvironment._num_agents self in
  let template := TestEnvironment.next_timestep self in
  let first := replace_step_type_reward_discount template FIRST 0%float 1%float in
  step_n (Act := Act) (S k) (TestEnvironment.set_episode_steps self 0) =
    (Ok (py_repeat first N) :: replicate k (Ok (py_repeat template N)),
     TestEnvironment.set_episode_steps self (1 + Z.of_nat k)) ∧
  (∀ num_agents observation_spec action_spec default_observation,
     self = TestEnvironment.__init__ num_agents observation_spec action_spec
              default_observation →
     step_n (Act := Act) (S k) self =
       (Ok (py_repeat first N) :: replicate k (Ok (py_repeat template N)),
        TestEnvironment.set_episode_steps self (1 + Z.of_nat k))).
Proof.
  intros HN Hlen HT N template first.
  assert (H0 : step_n (Act := Act) (S k) (TestEnvironment.set_episode_steps self 0) =
    (Ok (py_repeat first N) :: replicate k (Ok (py_repeat template N)),
     TestEnvironment.set_episode_steps self (1 + Z.of_nat k))).
  { cbn [step_n].
    change (TestEnvironment._num_agents (TestEnvironment.set_episode_steps self 0))
      with (TestEnvironment._num_agents self).
    rewrite (first_step (Act := Act) self HN).
    by rewrite (unbounded_steps self HN Hlen HT k 1). }
  split; [exact H0 |].
  intros n os asp o ->. exact H0.
Qed.

Section Episodes.

Variable L : Z.
Variable self : Env.
Hypothesis L_pos : 1 ≤ L.
Hypothesis agents_nonneg : 0 ≤ TestEnvironment._num_agents self.
Hypothesis length_is_L : TestEnvironment.episode_length self = Steps L.
Hypothesis template_is_MID : step_type (TestEnvironment.next_timestep self) = MID.

#[local] Abbreviation N' := (TestEnvironment._num_agents self).
#[local] Abbreviation template' := (TestEnvironment.next_timestep self).
#[local] Abbreviation first' :=
  (replace_step_type_reward_discount template' FIRST 0%float 1%float).
#[local] Abbreviation last' := (replace_step_type template' LAST).
#[local] Abbreviation at_steps' := (TestEnvironment.set_episode_steps self).

Lemma episode_returns_to_zero :
  step_n (Act := Act) (S (Z.to_nat (L - 1) + 1)) (at_steps' 0) =
    (one_episode L self, at_steps' 0).
Proof.
  unfold one_episode. cbn [step_n].
  change (TestEnvironment._num_agents (at_steps' 0)) with N'.
  rewrite (first_step (Act := Act) self agents_nonneg).
  rewrite step_n_app.
  rewrite (mid_steps L self agents_nonneg length_is_L template_is_MID) by lia.
  replace (1 + Z.of_nat (Z.to_nat (L - 1))) with L by lia.
  cbn [step_n]. change (TestEnvironment._num_agents (at_steps' L)) with N'.
  by rewrite (last_step L self L_pos agents_nonneg length_is_L).
Qed.

Lemma episodes_return_to_zero (m : nat) :
  step_n (Act := Act) (m * S (Z.to_nat (L - 1) + 1)) (at_steps' 0) =
    (concat (replicate m (one_episode L self)), at_steps' 0).
Proof.
  induction m as [| m IH]; [done |].
  cbn [Nat.mul replicate concat]. rewrite step_n_app.
  rewrite episode_returns_to_zero. by rewrite IH.
Qed.

End Episodes.

Lemma map_replicate_eq {A B} (f : A → B) (n : nat) (x : A) :
  map f (replicate n x) = replicate n (f x).
Proof. induction n as [| n IH]; cbn; [done | by rewrite IH]. Qed.

(** X6: episodes repeat: for an integer episode length L >= 1 and a MID
    template, the L + 1 calls of [step] of an episode bring every attribute
    back to what it was at the start, so [m] episodes in a row yield FIRST,
    L - 1 times MID and LAST, [m] times over. *)
Theorem episodes_repeat (L : Z) self (m : nat) :
  1 ≤ L →
  0 ≤ TestEnvironment._num_agents self →
  TestEnvironment.episode_length self = Steps L →
  step_type (TestEnvironment.next_timestep self) = MID →
  length (one_episode L self) = Z.to_nat (L + 1) ∧
  step_types (one_episode L self) =
    map (λ t, replicate (Z.to_nat (TestEnvironment._num_agents self)) t)
      (FIRST :: replicate (Z.to_nat (L - 1)) MID ++ [LAST]) ∧
  step_n (Act := Act) (m * Z.to_nat (L + 1))
      (TestEnvironment.set_episode_steps self 0) =
    (concat (replicate m (one_episode L self)),
     TestEnvironment.set_episode_steps self 0).
Proof.
  intros HL HN Hlen HM.
  split; [| split].
  - unfold one_episode. cbn [length]. rewrite length_app, length_replicate.
    cbn [length]. lia.
  - unfold one_episode, step_types, py_repeat.
    cbn [map]. rewrite !map_app, !map_replicate_eq. cbn [map].
    rewrite !map_replicate_eq. cbn. by rewrite HM.
  - replace (Z.to_nat (L + 1)) with (S (Z.to_nat (L - 1) + 1)) by lia.
    by apply episodes_return_to_zero.
Qed.

End EngineExtras.

(** ** The default observation of _TestEnvironment *)

Section ZerosProperties.








End ZerosProperties.

(** ** More on the images of the raw observation *)

Section ImageExtras.

Variables SCREEN_FEATURES MINIMAP_FEATURES : list string.


(** The image of a feature layer of [h] by [w]. *)
#[local] Abbreviation layer_image h w := (mk_ImageData 8 w h (zero_bytes (h * w))).

Lemma fill_layers_inv (table : list string) (n h w : Z) (rest : list Z)
    (images images' : gmap string ImageData) :
  SC2TestEnv.fill_layers table (n :: h :: w :: rest) images = Ok images' →
  (∀ name, name ∈ table → images' !! name = Some (layer_image h w)) ∧
  (∀ name, name ∉ table → images' !! name = images !! name).
Proof.
  revert images. induction table as [| key table IH]; intros images.
  - intros [= <-]. split; [| done].
    intros name H. by apply elem_of_nil in H.
  - cbn [SC2TestEnv.fill_layers drop].
    destruct (SC2TestEnv.fill (h :: w :: rest) 8) as [image |] eqn:Hi;
      cbn [mbind Result_bind]; [| discriminate].
    apply fill_ok_inv in Hi as (h0 & w0 & rest0 & [= <- <- _] & _ & _ & _ & ->).
    rewrite ceil_div8_bytes.
    intros [Hin Hout]%IH. split.
    + intros name [-> | Hname]%elem_of_cons; [| by apply Hin].
      destruct (decide (key ∈ table)) as [Ht | Ht]; [by apply Hin |].
      by rewrite (Hout _ Ht), lookup_insert_eq.
    + intros name [Hne Ht]%not_elem_of_cons.
      by rewrite (Hout _ Ht), lookup_insert_ne.
Qed.

(** What [fill_images] leaves in the two stacks of feature layers and in
    the scalar fields. *)
Lemma fill_images_layers (obs_spec : ObsSpec) (obs raw : RawObservation) :
  SC2TestEnv.fill_images SCREEN_FEATURES MINIMAP_FEATURES obs_spec obs = Ok raw →
  match obs_spec !! "feature_screen" with
  | Some dims => SC2TestEnv.fill_layers SCREEN_FEATURES dims (renders obs) = Ok (renders raw)
  | None => renders raw = renders obs
  end ∧
  match obs_spec !! "feature_minimap" with
  | Some dims =>
      SC2TestEnv.fill_layers MINIMAP_FEATURES dims (minimap_renders obs)
        = Ok (minimap_renders raw)
  | None => minimap_renders raw = minimap_renders obs
  end ∧
  game_loop raw = game_loop obs ∧ player_common raw = player_common obs ∧
  abilities raw = abilities obs ∧ score raw = score obs ∧
  score_details raw = score_details obs.
Proof.
  unfold SC2TestEnv.fill_images, dict_contains, dict_item,
    mbind, Result_bind, mret, Result_ret.
  destruct (obs_spec !! "feature_screen") as [ds |];
    destruct (obs_spec !! "feature_minimap") as [dm |];
    destruct (obs_spec !! "rgb_screen") as [dr |];
    destruct (obs_spec !! "rgb_minimap") as [dn |];
    rewrite ?(bool_decide_eq_true_2 (is_Some (Some _))) by (by eexists);
    rewrite ?(bool_decide_eq_false_2 (is_Some None)) by (by intros [? ?]);
    repeat case_match; simplify_eq; try discriminate; intros [= <-]; done.
Qed.

(** X11: for every declared stack of feature layers, of shape (n, h, w), the raw
    observation gets one image for every name of the table of the stack, 8
    bits per pixel, [w] by [h], [h * w] zero bytes, and no other image is
    touched; a stack that is not declared is left as it was, empty in the
    fixture. *)
Theorem feature_layers_filled (obs_spec : ObsSpec) (obs raw : RawObservation) :
  SC2TestEnv.fill_images SCREEN_FEATURES MINIMAP_FEATURES obs_spec obs = Ok raw →
  (∀ n h w rest,
     obs_spec !! "feature_screen" = Some (n :: h :: w :: rest) →
     (∀ name, name ∈ SCREEN_FEATURES →
        renders raw !! name = Some (mk_ImageData 8 w h (zero_bytes (h * w)))) ∧
     (∀ name, name ∉ SCREEN_FEATURES → renders raw !! name = renders obs !! name)) ∧
  (obs_spec !! "feature_screen" = None → renders raw = renders obs) ∧
  (∀ n h w rest,
     obs_spec !! "feature_minimap" = Some (n :: h :: w :: rest) →
     (∀ name, name ∈ MINIMAP_FEATURES →
        minimap_renders raw !! name = Some (mk_ImageData 8 w h (zero_bytes (h * w)))) ∧
     (∀ name, name ∉ MINIMAP_FEATURES →
        minimap_renders raw !! name = minimap_renders obs !! name)) ∧
  (obs_spec !! "feature_minimap" = None → minimap_renders raw = minimap_renders obs).
Proof.
  intros (Hs & Hm & _)%fill_images_layers.
  split; [| split; [| split]].
  - intros n h w rest Hd. rewrite Hd in Hs. by apply fill_layers_inv in Hs.
  - intros Hd. by rewrite Hd in Hs.
  - intros n h w rest Hd. rewrite Hd in Hm. by apply fill_layers_inv in Hm.
  - intros Hd. by rewrite Hd in Hm.
Qed.

(** X12: filling the images never touches the scalar fields: the game loop, the
    player summary, the abilities, the score and its details reach
    [transform_obs] as they were set. *)
Theorem fill_images_keeps_scalars (obs_spec : ObsSpec) (obs raw : RawObservation) :
  SC2TestEnv.fill_images SCREEN_FEATURES MINIMAP_FEATURES obs_spec obs = Ok raw →
  game_loop raw = game_loop obs ∧ player_common raw = player_common obs ∧
  abilities raw = abilities obs ∧ score raw = score obs ∧
  score_details raw = score_details obs.
Proof. by intros (_ & _ & H)%fill_images_layers. Qed.

End ImageExtras.

(** ** More on the default observation of SC2TestEnv *)

Section CameraExtras.

Lemma update_prefix_replicate {A} (n m : nat) (f : A → A) (x : A) :
  update_prefix n f (replicate m x) =
    replicate (n `min` m) (f x) ++ replicate (m - n) x.
Proof.
  revert m. induction n as [| n IH]; intros [| m]; cbn; try done.
  by rewrite IH.
Qed.

Lemma fill_rows_replicate (W : nat) (v : Z) (l : list (list Z)) :
  Forall (λ r, length r = W) l →
  map (map (λ _, v)) l = replicate (length l) (replicate W v).
Proof.
  induction 1 as [| r l Hr _ IH]; cbn [map length replicate]; [done |].
  rewrite IH. f_equal. clear -Hr. subst W.
  induction r as [| x r IH]; cbn; [done | by rewrite IH].
Qed.

Lemma camera_box_rows (a : ndarray2) (H W : nat) :
  shape a = (H, W) →
  well_shaped a →
  SC2TestEnv.camera_box a =
    mk_ndarray2 (H, W)
      (replicate (H / 2) (replicate (W / 2) 1 ++ replicate (W - W / 2) 0)
         ++ replicate (H - H / 2) (replicate W 0)).
Proof.
  intros Hshape [Hrows Hcols]. rewrite Hshape in Hrows, Hcols. cbn in Hrows, Hcols.
  unfold SC2TestEnv.camera_box, ndarray_fill_slice, ndarray_fill.
  cbn [rows shape]. rewrite Hshape. cbn [fst snd]. f_equal.
  rewrite (fill_rows_replicate W 0 _ Hcols), Hrows.
  rewrite update_prefix_replicate, update_prefix_replicate.
  pose proof (Nat.Div0.div_le_upper_bound H 2 H ltac:(lia)).
  pose proof (Nat.Div0.div_le_upper_bound W 2 W ltac:(lia)).
  by rewrite !Nat.min_l by lia.
Qed.

(** X14: the camera layer after lines 320 to 322 is a function of its shape
    alone: the first H // 2 rows are W // 2 ones followed by zeros, the
    other rows are zeros.  Nothing of the former content shows, and marking
    the layer twice changes nothing more. *)
Theorem camera_box_closed_form (a : ndarray2) (H W : nat) :
  shape a = (H, W) →
  well_shaped a →
  SC2TestEnv.camera_box a =
    mk_ndarray2 (H, W)
      (replicate (H / 2) (replicate (W / 2) 1 ++ replicate (W - W / 2) 0)
         ++ replicate (H - H / 2) (replicate W 0)) ∧
  (∀ b, shape b = (H, W) → well_shaped b →
        SC2TestEnv.camera_box b = SC2TestEnv.camera_box a) ∧
  SC2TestEnv.camera_box (SC2TestEnv.camera_box a) = SC2TestEnv.camera_box a.
Proof.
  intros Hshape Hwf. split; [by apply camera_box_rows |]. split.
  - intros b Hb Hwb. by rewrite (camera_box_rows a H W), (camera_box_rows b H W).
  - apply (camera_box_rows (SC2TestEnv.camera_box a) H W) in Hshape as Hcc.
    + by rewrite Hcc, (camera_box_rows a H W).
    + by apply camera_box_well_shaped.
Qed.

(** X15: marking the camera touches nothing but the camera layer: an observation
    without a minimap is returned as it is; otherwise every other field of
    the observation and every other layer of the minimap is kept, and no
    field or layer is added or removed.  A minimap without a camera layer
    is an AttributeError. *)
Theorem mark_camera_frame (observation : Observation) :
  (observation !! "feature_minimap" = None →
   SC2TestEnv.mark_camera observation = Ok observation) ∧
  (∀ layers,
     observation !! "feature_minimap" = Some (Layers layers) →
     layers !! "camera" = None →
     SC2TestEnv.mark_camera observation = Raise (AttributeError "camera")) ∧
  (∀ dims flat,
     observation !! "feature_minimap" = Some (Array dims flat) →
     SC2TestEnv.mark_camera observation = Raise (AttributeError "camera")) ∧
  (∀ observation',
     SC2TestEnv.mark_camera observation = Ok observation' →
     dom observation' = dom observation ∧
     (∀ key, key ≠ "feature_minimap" → observation' !! key = observation !! key) ∧
     (∀ layers layers',
        observation !! "feature_minimap" = Some (Layers layers) →
        observation' !! "feature_minimap" = Some (Layers layers') →
        dom layers' = dom layers ∧
        ∀ name, name ≠ "camera" → layers' !! name = layers !! name)).
Proof.
  unfold SC2TestEnv.mark_camera, dict_contains.
  split; [| split; [| split]].
  - intros ->. rewrite bool_decide_eq_false_2; [done | by intros [? ?]].
  - intros layers -> ->. by rewrite bool_decide_eq_true_2 by by eexists.
  - intros dims flat ->. by rewrite bool_decide_eq_true_2 by by eexists.
  - intros observation'.
    destruct (observation !! "feature_minimap") as [[layers | dims flat] |] eqn:Hfm.
    + rewrite bool_decide_eq_true_2 by by eexists.
      destruct (layers !! "camera") as [cam |] eqn:Hcam; [| done].
      intros [= <-]. split; [| split].
      * by apply dom_insert_lookup_L.
      * intros key Hkey. by rewrite lookup_insert_ne.
      * intros l l' [= <-]. rewrite lookup_insert_eq. intros [= <-]. split.
        -- by apply dom_insert_lookup_L.
        -- intros name Hname. by rewrite lookup_insert_ne.
    + by rewrite bool_decide_eq_true_2 by by eexists.
    + rewrite bool_decide_eq_false_2 by (by intros [? ?]).
      intros [= <-]. split; [done |]. split; [done |]. intros l l' [=].
Qed.

End CameraExtras.

(** ** More on the construction of SC2TestEnv *)

Section FixtureExtras.

Context {ActSpec : Type}.
Variables SCREEN_FEATURES MINIMAP_FEATURES : list string.
Variable new_Features : list (string * PyVal) → Result (SC2TestEnv.Features ActSpec).

#[local] Abbreviation init' :=
  (SC2TestEnv.__init__ SCREEN_FEATURES MINIMAP_FEATURES new_Features).
#[local] Abbreviation construct' :=
  (SC2TestEnv.construct SCREEN_FEATURES MINIMAP_FEATURES new_Features).

(** With keywords only, the binding fails on an unknown keyword alone. *)
Lemma bind_keywords_only (params kwargs : list (string * PyVal)) :
  bind_arguments params [] kwargs =
    if forallb (λ kv, bool_decide (kv.1 ∈ params.*1)) kwargs
    then Ok (list_to_map kwargs ∪ list_to_map params)
    else Raise (TypeError "got an unexpected keyword argument").
Proof.
  unfold bind_arguments. cbn [length].
  replace (length params <? 0)%nat with false by (symmetry; apply Nat.ltb_ge; lia).
  destruct (forallb _ kwargs); cbn [negb]; [| done].
  assert (Hno : forallb (λ kv : string * PyVal,
                  negb (bool_decide (kv.1 ∈ take 0 (params.*1)))) kwargs = true).
  { apply forallb_forall. intros kv _. cbn [take].
    rewrite bool_decide_eq_false_2; [done | apply not_elem_of_nil]. }
  rewrite Hno. cbn [negb zip zip_with list_to_map foldr].
  replace (zip (params.*1) []) with (@nil (string * PyVal)) by by destruct (params.*1).
  cbn [list_to_map foldr]. by rewrite (left_id_L ∅ (∪)).
Qed.

(** [construct] reads its parameters through the read options only. *)
Lemma construct_reads (arg arg' : string → PyVal) :
  (∀ name, name ∈ SC2Options.read → arg name = arg' name) →
  construct' arg = construct' arg'.
Proof.
  intros H. unfold SC2TestEnv.construct, SC2TestEnv.features_kwargs.
  rewrite !(H "feature_screen_size"), !(H "feature_screen_width"),
    !(H "feature_screen_height"), !(H "feature_minimap_size"),
    !(H "feature_minimap_width"), !(H "feature_minimap_height"),
    !(H "rgb_screen_size"), !(H "rgb_screen_width"), !(H "rgb_screen_height"),
    !(H "rgb_minimap_size"), !(H "rgb_minimap_width"), !(H "rgb_minimap_height"),
    !(H "use_feature_units"), !(H "camera_width_world_units"),
    !(H "action_space"), !(H "players")
    by (apply (bool_decide_unpack _); vm_compute; exact I).
  done.
Qed.

(** X16: the options the constructor deletes have no effect: a keyword for one
    of them, whatever its value, added to a call by keywords gives the same
    fixture, or the same exception. *)
Theorem deleted_options_ignored (u : string) (v : PyVal)
    (kwargs : list (string * PyVal)) :
  u ∈ SC2Options.deleted →
  u ∉ kwargs.*1 →
  init' [] ((u, v) :: kwargs) = init' [] kwargs.
Proof.
  intros Hu Hfresh.
  assert (Hsig : u ∈ SC2TestEnv.signature.*1).
  { assert (HF : Forall (λ x, x ∈ SC2TestEnv.signature.*1) SC2Options.deleted)
      by (apply (bool_decide_unpack _); vm_compute; exact I).
    rewrite Forall_forall in HF. by apply HF. }
  assert (Hread : ∀ name, name ∈ "_only_use_kwargs" :: SC2Options.read → name ≠ u).
  { assert (HF : Forall (λ x, x ∉ SC2Options.deleted)
                   ("_only_use_kwargs" :: SC2Options.read))
      by (apply (bool_decide_unpack _); vm_compute; exact I).
    rewrite Forall_forall in HF. intros name Hname ->. by apply (HF u). }
  unfold SC2TestEnv.__init__. rewrite !bind_keywords_only.
  cbn [forallb fst]. rewrite (bool_decide_eq_true_2 _ Hsig). cbn [andb].
  destruct (forallb _ kwargs); [| done].
  cbn [mbind Result_bind list_to_map foldr fst snd].
  assert (Hagree : ∀ name, name ∈ "_only_use_kwargs" :: SC2Options.read →
    default PyNone ((<[u:=v]> (list_to_map kwargs) ∪ list_to_map SC2TestEnv.signature
                      : gmap string PyVal) !! name) =
    default PyNone ((list_to_map kwargs ∪ list_to_map SC2TestEnv.signature
                      : gmap string PyVal) !! name)).
  { intros name Hname%Hread. f_equal.
    rewrite !lookup_union. by rewrite lookup_insert_ne. }
  rewrite (Hagree "_only_use_kwargs") by (left; done).
  destruct (truthy _); [done |].
  apply construct_reads. intros name Hname. apply Hagree. by right.
Qed.

(** X17: every timestep a constructed fixture returns carries the default
    observation synthesized at construction, through any sequence of calls
    of [reset] and [step]. *)
Theorem fixture_returns_default_observation {Act : Type}
    (args : list PyVal) (kwargs : list (string * PyVal)) (env : SC2TestEnv.t ActSpec) :
  init' args kwargs = Ok env →
  ∃ default_observation,
    SC2TestEnv._default_observation SCREEN_FEATURES MINIMAP_FEATURES
      (SC2TestEnv._features env)
      (TestEnvironment.observation_spec (SC2TestEnv.base env))
      = Ok default_observation ∧
    ∀ calls : list (Call (Obs := Observation) (Act := Act)),
      Forall is_method_call calls →
      (∀ (actions : list (option Act)) tss self',
         TestEnvironment.step actions (run calls (SC2TestEnv.base env)) = (Ok tss, self') →
         ∀ ts, ts ∈ tss → observation ts = default_observation) ∧
      (∀ tss self',
         TestEnvironment.reset (Act := Act) (run calls (SC2TestEnv.base env))
           = (Ok tss, self') →
         ∀ ts, ts ∈ tss → observation ts = default_observation).
Proof.
  intros (a & _ & _ & Hc)%init_ok.
  apply construct_ok in Hc as (features & n & o & _ & _ & Ho & ->).
  exists o. split; [exact Ho |].
  intros calls Hcalls.
  destruct (run_writes calls
              (SC2TestEnv.base (SC2TestEnv.built features n o)))
    as (c & ts0 & Hrun & Hts).
  specialize (Hts Hcalls). subst ts0.
  assert (Hobs : ∀ c' actions tss self',
    TestEnvironment.step (Act := Act) actions
      (TestEnvironment.set_episode_steps
         (SC2TestEnv.base (SC2TestEnv.built features n o)) c') = (Ok tss, self') →
    ∀ ts, ts ∈ tss → observation ts = o).
  { intros c' actions tss self' H ts Hts.
    apply step_ok_inv in H as (_ & -> & _).
    apply elem_of_py_repeat in Hts as ->.
    by rewrite pick_timestep_observation. }
  rewrite Hrun. split.
  - intros actions tss self'. apply Hobs.
  - intros tss self'. rewrite reset_unfold. apply Hobs.
Qed.

End FixtureExtras.

(** ** The further properties on the sample values *)

Lemma step_ignores_actions_witness :
  TestEnvironment.step (Act := unit) [None; None] (Samples.engine 2) =
  TestEnvironment.step (Act := unit) [Some tt; None] (Samples.engine 2).
Proof.
  apply (step_ignores_actions (Samples.engine 2) [None; None] [Some tt; None]).
  reflexivity.
Defined.

Lemma calls_keep_configuration_witness :
  TestEnvironment._num_agents (run MoreSamples.method_calls (Samples.engine 2)) = 2 ∧
  TestEnvironment.episode_length (run MoreSamples.method_calls (Samples.engine 2))
    = Steps 10 ∧
  TestEnvironment.next_timestep (run MoreSamples.method_calls (Samples.engine 2)) =
    TestEnvironment.next_timestep (Samples.engine 2).
Proof.
  destruct (calls_keep_configuration MoreSamples.method_calls (Samples.engine 2))
    as (HN & _ & _ & Hlen & Hts & _).
  split; [exact HN |]. split; [exact Hlen |].
  apply Hts. repeat constructor.
Defined.

Lemma reset_restarts_episode_witness :
  TestEnvironment.reset (Act := unit) Samples.engine_started =
    (Ok (py_repeat (mkTimeStep FIRST 0%float 1%float tt) 2),
     TestEnvironment.set_episode_steps Samples.engine_started 1).
Proof.
  assert (HN : 0 ≤ TestEnvironment._num_agents Samples.engine_started)
    by (vm_compute; discriminate).
  exact (proj1 (reset_restarts_episode (Act := unit) Samples.engine_started HN)).
Defined.

Lemma last_then_first_witness :
  let ts' := mkTimeStep FIRST 0%float 1%float tt in
  step_type ts' = FIRST ∧ reward ts' = 0%float ∧ discount ts' = 1%float ∧
  observation ts' =
    observation (TestEnvironment.next_timestep
                   (step_n (Act := unit) 10 (Samples.engine 1)).2).
Proof.
  cbv zeta.
  assert (Hlast : ∃ ts : TimeStep unit,
            ts ∈ [mkTimeStep LAST 0%float 1%float tt] ∧ step_type ts = LAST).
  { exists (mkTimeStep LAST 0%float 1%float tt). split; [repeat constructor | reflexivity]. }
  apply (last_then_first (Act := unit)
           (step_n (Act := unit) 10 (Samples.engine 1)).2 [None]
           [mkTimeStep LAST 0%float 1%float tt] _ eq_refl Hlast
           [None] [mkTimeStep FIRST 0%float 1%float tt] _ eq_refl).
  repeat constructor.
Defined.

Lemma unbounded_episode_never_ends_witness :
  step_n (Act := unit) 4 (TestEnvironment.set_episode_steps (MoreSamples.unbounded 2) 0) =
    (Ok (py_repeat (mkTimeStep FIRST 0%float 1%float tt) 2)
       :: replicate 3 (Ok (py_repeat (mkTimeStep MID 0%float 1%float tt) 2)),
     TestEnvironment.set_episode_steps (MoreSamples.unbounded 2) (1 + Z.of_nat 3)).
Proof.
  assert (HN : 0 ≤ TestEnvironment._num_agents (MoreSamples.unbounded 2))
    by (vm_compute; discriminate).
  assert (HT : step_type (TestEnvironment.next_timestep (MoreSamples.unbounded 2)) ≠ LAST)
    by discriminate.
  exact (proj1 (unbounded_episode_never_ends (Act := unit)
                  (MoreSamples.unbounded 2) 3 HN eq_refl HT)).
Defined.

Lemma episodes_repeat_witness :
  step_n (Act := unit) (2 * Z.to_nat (10 + 1))
      (TestEnvironment.set_episode_steps (Samples.engine 1) 0) =
    (concat (replicate 2 (one_episode 10 (Samples.engine 1))),
     TestEnvironment.set_episode_steps (Samples.engine 1) 0).
Proof.
  assert (HL : 1 ≤ 10) by lia.
  assert (HN : 0 ≤ TestEnvironment._num_agents (Samples.engine 1))
    by (vm_compute; discriminate).
  exact (proj2 (proj2 (episodes_repeat (Act := unit) 10 (Samples.engine 1) 2
                         HL HN eq_refl eq_refl))).
Defined.




Lemma feature_layers_filled_witness :
  renders Samples.raw_observation !! "creep" =
    Some (mk_ImageData 8 4 6 (zero_bytes (6 * 4))) ∧
  minimap_renders Samples.raw_observation !! "camera" =
    Some (mk_ImageData 8 6 4 (zero_bytes (4 * 6))).
Proof.
  assert (Hfill : SC2TestEnv.fill_images Samples.SCREEN_FEATURES Samples.MINIMAP_FEATURES
            (SC2TestEnv.features_observation_spec Samples.features)
            SC2TestEnv.scalar_observation = Ok Samples.raw_observation)
    by (vm_compute; reflexivity).
  destruct (feature_layers_filled Samples.SCREEN_FEATURES Samples.MINIMAP_FEATURES
              _ _ _ Hfill) as (Hs & _ & Hm & _).
  split.
  - apply (proj1 (Hs 17 6 4 [] ltac:(vm_compute; reflexivity))).
    apply (bool_decide_unpack _). vm_compute. exact I.
  - apply (proj1 (Hm 7 4 6 [] ltac:(vm_compute; reflexivity))).
    apply (bool_decide_unpack _). vm_compute. exact I.
Defined.

Lemma fill_images_keeps_scalars_witness :
  game_loop Samples.raw_observation = 1 ∧
  player_common Samples.raw_observation =
    mk_PlayerCommon 1 20 50 36 21 6 15 2 6 0 0 ∧
  abilities Samples.raw_observation = [mk_AvailableAbility 1 true] ∧
  score Samples.raw_observation = 300 ∧
  score_details Samples.raw_observation =
    mk_ScoreDetails 0 0 190 230 0 0 2130 560 50 20 2000 500.
Proof.
  assert (Hfill : SC2TestEnv.fill_images Samples.SCREEN_FEATURES Samples.MINIMAP_FEATURES
            (SC2TestEnv.features_observation_spec Samples.features)
            SC2TestEnv.scalar_observation = Ok Samples.raw_observation)
    by (vm_compute; reflexivity).
  exact (fill_images_keeps_scalars Samples.SCREEN_FEATURES Samples.MINIMAP_FEATURES
           _ _ _ Hfill).
Defined.

Lemma visual_images_filled_witness :
  render_map MoreSamples.rgb_raw = Some (mk_ImageData 24 6 4 (zero_bytes (4 * 6 * 3))) ∧
  render_minimap MoreSamples.rgb_raw = Some (mk_ImageData 24 3 2 (zero_bytes (2 * 3 * 3))).
Proof.
  apply (visual_images_filled Samples.SCREEN_FEATURES Samples.MINIMAP_FEATURES
           MoreSamples.rgb_spec MoreSamples.rgb_raw 4 6 2 3 [3] [3]).
  - vm_compute. reflexivity.
  - vm_compute. reflexivity.
  - vm_compute. reflexivity.
Defined.

Lemma camera_box_closed_form_witness :
  SC2TestEnv.camera_box Samples.camera =
    mk_ndarray2 (4, 6)%nat
      (replicate (4 / 2) (replicate (6 / 2) 1 ++ replicate (6 - 6 / 2) 0)
         ++ replicate (4 - 4 / 2) (replicate 6 0)) ∧
  (∀ b, shape b = (4, 6)%nat → well_shaped b →
        SC2TestEnv.camera_box b = SC2TestEnv.camera_box Samples.camera) ∧
  SC2TestEnv.camera_box (SC2TestEnv.camera_box Samples.camera) =
    SC2TestEnv.camera_box Samples.camera.
Proof.
  apply (camera_box_closed_form Samples.camera 4 6).
  - reflexivity.
  - split; [reflexivity | repeat constructor].
Defined.

Lemma mark_camera_frame_witness :
  dom MoreSamples.marked = dom MoreSamples.observation ∧
  MoreSamples.marked !! "player" = MoreSamples.observation !! "player".
Proof.
  assert (Hmark : SC2TestEnv.mark_camera MoreSamples.observation = Ok MoreSamples.marked)
    by (vm_compute; reflexivity).
  destruct (proj2 (proj2 (proj2 (mark_camera_frame MoreSamples.observation)))
              _ Hmark) as (Hdom & Hkeys & _).
  split; [exact Hdom |]. apply Hkeys. discriminate.
Defined.

Lemma deleted_options_ignored_witness :
  Samples.construct [] [("discount", PyFloat 0.5%float); ("players", Samples.roster)] =
  Samples.construct [] [("players", Samples.roster)].
Proof.
  apply (deleted_options_ignored Samples.SCREEN_FEATURES Samples.MINIMAP_FEATURES
           Samples.new_Features "discount" (PyFloat 0.5%float)
           [("players", Samples.roster)]).
  - apply (bool_decide_unpack _). vm_compute. exact I.
  - apply (bool_decide_unpack _). vm_compute. exact I.
Defined.

Lemma fixture_returns_default_observation_witness :
  ∃ default_observation,
    SC2TestEnv._default_observation Samples.SCREEN_FEATURES Samples.MINIMAP_FEATURES
      (SC2TestEnv._features Samples.fixture)
      (TestEnvironment.observation_spec (SC2TestEnv.base Samples.fixture))
      = Ok default_observation ∧
    ∀ calls : list (Call (Obs := Observation) (Act := unit)),
      Forall is_method_call calls →
      (∀ (actions : list (option unit)) tss self',
         TestEnvironment.step actions (run calls (SC2TestEnv.base Samples.fixture))
           = (Ok tss, self') →
         ∀ ts, ts ∈ tss → observation ts = default_observation) ∧
      (∀ tss self',
         TestEnvironment.reset (Act := unit) (run calls (SC2TestEnv.base Samples.fixture))
           = (Ok tss, self') →
         ∀ ts, ts ∈ tss → observation ts = default_observation).
Proof.
  assert (Hinit : Samples.construct [] [] = Ok Samples.fixture)
    by (vm_compute; reflexivity).
  exact (fixture_returns_default_observation Samples.SCREEN_FEATURES
           Samples.MINIMAP_FEATURES Samples.new_Features [] [] Samples.fixture Hinit).
Defined.

(** ** A template that ends the episode *)

Section LastTemplate.

Context {Obs ObsSpec ActSpec Act : Type}.

Variable self : TestEnvironment.t Obs ObsSpec ActSpec.
Hypothesis agents_nonneg : 0 ≤ TestEnvironment._num_agents self.
Hypothesis template_is_LAST : step_type (TestEnvironment.next_timestep self) = LAST.

#[local] Abbreviation N'' := (TestEnvironment._num_agents self).
#[local] Abbreviation template'' := (TestEnvironment.next_timestep self).
#[local] Abbreviation first'' :=
  (replace_step_type_reward_discount template'' FIRST 0%float 1%float).
#[local] Abbreviation at_steps'' := (TestEnvironment.set_episode_steps self).

Lemma last_template_step (c : Z) :
  c ≠ 0 →
  TestEnvironment.step (Act := Act) (py_repeat None N'') (at_steps'' c) =
    (Ok (py_repeat template'' N''), at_steps'' 0).
Proof.
  intros Hc. rewrite step_none_at by done.
  unfold next_episode_steps, TestEnvironment.pick_timestep. cbn.
  destruct (Z.eqb_spec c 0); [done |].
  assert (Hsame : replace_step_type template'' LAST = template'').
  { unfold replace_step_type. rewrite <- template_is_LAST. by destruct template''. }
  destruct (ge_length c _); rewrite ?Hsame, template_is_LAST; done.
Qed.

Lemma last_template_pairs (m : nat) :
  step_n (Act := Act) (m * 2) (at_steps'' 0) =
    (concat (replicate m [Ok (py_repeat first'' N''); Ok (py_repeat template'' N'')]),
     at_steps'' 0).
Proof.
  induction m as [| m IH]; [done |].
  cbn [Nat.mul Nat.add replicate concat step_n].
  change (TestEnvironment._num_agents (at_steps'' 0)) with N''.
  rewrite (first_step (Act := Act) self agents_nonneg).
  change (TestEnvironment._num_agents (at_steps'' 1)) with N''.
  rewrite last_template_step by done.
  by rewrite IH.
Qed.

End LastTemplate.

(** X7: A template whose step type is LAST ends every episode after its first
    step, whatever the episode length: from a counter at 0 the calls of
    [step] yield FIRST and the template in turn, and every second call
    leaves the counter at 0 again. *)
Theorem last_template_ends_episode {Obs ObsSpec ActSpec Act : Type}
    (self : TestEnvironment.t Obs ObsSpec ActSpec) (m : nat) :
  0 ≤ TestEnvironment._num_agents self →
  step_type (TestEnvironment.next_timestep self) = LAST →
  let N := TestEnvironment._num_agents self in
  let template := TestEnvironment.next_timestep self in
  let first := replace_step_type_reward_discount template FIRST 0%float 1%float in
  step_n (Act := Act) (m * 2) (TestEnvironment.set_episode_steps self 0) =
    (concat (replicate m [Ok (py_repeat first N); Ok (py_repeat template N)]),
     TestEnvironment.set_episode_steps self 0) ∧
  step_types (concat (replicate m [Ok (py_repeat first N); Ok (py_repeat template N)])) =
    concat (replicate m [replicate (Z.to_nat N) FIRST; replicate (Z.to_nat N) LAST]).
Proof.
  intros HN HL N template first. split; [by apply last_template_pairs |].
  unfold step_types. induction m as [| m IH]; [done |].
  cbn [replicate concat app map]. rewrite IH. unfold py_repeat.
  rewrite !map_replicate_eq. cbn. unfold template. by rewrite HL.
Qed.

Lemma last_template_ends_episode_witness :
  let self := TestEnvironment.set_next_timestep (Samples.engine 1)
                (mkTimeStep LAST 0%float 1%float tt) in
  step_n (Act := unit) (3 * 2) (TestEnvironment.set_episode_steps self 0) =
    (concat (replicate 3 [Ok [mkTimeStep FIRST 0%float 1%float tt];
                          Ok [mkTimeStep LAST 0%float 1%float tt]]),
     TestEnvironment.set_episode_steps self 0).
Proof.
  cbv zeta.
  assert (HN : 0 ≤ TestEnvironment._num_agents
                     (TestEnvironment.set_next_timestep (Samples.engine 1)
                        (mkTimeStep LAST 0%float 1%float tt)))
    by (vm_compute; discriminate).
  exact (proj1 (last_template_ends_episode (Act := unit)
                  (TestEnvironment.set_next_timestep (Samples.engine 1)
                     (mkTimeStep LAST 0%float 1%float tt)) 3 HN eq_refl)).
Defined.
